(** * Daily profit job of the investment backend

    A shallow embedding of [backend/src/jobs/dailyProfitJob.js]
    (class [DailyProfitJob]: [execute], [processInvestment],
    [completeInvestment]) together with the part of the Prisma store it
    talks to, and the properties of the accrual engine proved on it.

    Modelling conventions.
    - Amounts are held in Prisma [Decimal] columns: exact decimals, [Q]
      here, compared with [Qeq] ([==]).  The column scale of the database is
      outside the model: the store keeps the decimal it is given.
    - The job reads amounts with [parseFloat] and computes on JavaScript
      numbers.  The two operations on an investment are carried twice.
      [processInvestment] and [completeInvestment] compute on exact
      rationals; they are used, with [execute], for the control flow, the
      store discipline and the run summary, in statements that do not turn
      on how a product or a difference is rounded.  Module [Binary64] has
      the same two operations on binary64 numbers: [parseFloat], the IEEE
      operations, and the decimal Prisma stores for a number; it is used
      where the value of an amount matters.
    - [Date] values are milliseconds since the epoch ([Z]); [new Date()] is
      the parameter [now].
    - A Prisma call either returns or throws: [Outcome].  The body of
      [prisma.$transaction] is a state transformer on the tables that is
      rolled back when it throws.  The store of the model throws when the
      server cannot be reached or a row to update is missing; the other
      failures of a real store (time-out, deadlock, constraint) are not
      modelled.
    - Logging has no effect on the state and is left out. *)

From Stdlib Require Import ZArith QArith Qminmax Lqa Lia Floats.
From stdpp Require Import base option list gmap strings.

Local Open Scope string_scope.

(** ** Outcomes of calls that may throw *)

Inductive Outcome (A : Type) : Type :=
| Returned (a : A)
| Threw (message : string).
Arguments Returned {A} a.
Arguments Threw {A} message.

(** ** Tables *)

Module User.
Record t := mk {
  id : string;
  name : string;
  email : string;
  balance_usd : Q;
}.

Definition increment_balance (delta : Q) (u : t) : t :=
  mk (id u) (name u) (email u) (balance_usd u + delta).
End User.

Module InvestmentPlan.
Record t := mk {
  name : string;
  daily_percentage : Q;
  duration_days : Z;
}.
End InvestmentPlan.

Inductive InvestmentStatus := ACTIVE | COMPLETED.

Definition is_active (s : InvestmentStatus) : bool :=
  match s with ACTIVE => true | COMPLETED => false end.

Module ActiveInvestment.
Record t := mk {
  id : string;
  user_id : string;
  plan_id : string;
  amount_usd : Q;
  start_date : Z;
  end_date : Z;
  daily_percent : Q;
  status : InvestmentStatus;
  total_earned : Q;
  updated_at : Z;
}.

(** [data: { total_earned: { increment }, updated_at }] *)
Definition increment_earned (delta : Q) (now : Z) (r : t) : t :=
  mk (id r) (user_id r) (plan_id r) (amount_usd r) (start_date r)
     (end_date r) (daily_percent r) (status r) (total_earned r + delta) now.

(** [data: { status: 'COMPLETED', total_earned, updated_at }] *)
Definition complete (total : Q) (now : Z) (r : t) : t :=
  mk (id r) (user_id r) (plan_id r) (amount_usd r) (start_date r)
     (end_date r) (daily_percent r) COMPLETED total now.
End ActiveInvestment.

Inductive TransactionType := PROFIT | INVESTMENT.

Module Transaction.
(** The three description templates the job writes. *)
Inductive description :=
| DailyProfit (plan_name : string) (daily_percent : Q)
| FinalProfit (plan_name : string)
| InvestmentCompleted (plan_name : string) (total_earned : Q).

Record t := mk {
  user_id : string;
  type : TransactionType;
  amount_usd : Q;
  descr : description;
}.
End Transaction.

Record Db := mkDb {
  users : gmap string User.t;
  investmentPlans : gmap string InvestmentPlan.t;
  activeInvestments : gmap string ActiveInvestment.t;
  transactions : list Transaction.t;
}.

(** The Prisma client: the tables and whether the server can be reached. *)
Record Prisma := mkPrisma {
  db : Db;
  connected : bool;
}.

(** An investment as [findMany] with [include: { user, plan }] returns it. *)
Record Investment := mkInvestment {
  row : ActiveInvestment.t;
  user : User.t;
  plan : InvestmentPlan.t;
}.

(** ** Store operations *)

Definition unreachable_msg : string := "Can't reach database server".
Definition not_found_msg : string := "Record to update not found.".

(** Body of a transaction: reads and writes the tables, or throws. *)
Definition Tx (A : Type) : Type := Db -> Outcome (A * Db).

Definition tx_ret {A} (a : A) : Tx A := fun d => Returned (a, d).

Definition tx_bind {A B} (m : Tx A) (k : A -> Tx B) : Tx B :=
  fun d =>
    match m d with
    | Returned (a, d') => k a d'
    | Threw e => Threw e
    end.

Declare Scope tx_scope.
Delimit Scope tx_scope with tx.
Notation "x <- m ;; k" := (tx_bind m (fun x => k))
  (at level 100, m at next level, right associativity) : tx_scope.

(** [tx.user.update({ where: { id }, data: { balance_usd: { increment } } })] *)
Definition user_update_increment (uid : string) (delta : Q) : Tx User.t :=
  fun d =>
    match users d !! uid with
    | Some u =>
        let u' := User.increment_balance delta u in
        Returned (u', mkDb (<[uid := u']> (users d)) (investmentPlans d)
                           (activeInvestments d) (transactions d))
    | None => Threw not_found_msg
    end.

(** [tx.activeInvestment.update({ where: { id }, data })] *)
Definition activeInvestment_update (iid : string)
    (f : ActiveInvestment.t -> ActiveInvestment.t) : Tx ActiveInvestment.t :=
  fun d =>
    match activeInvestments d !! iid with
    | Some r =>
        let r' := f r in
        Returned (r', mkDb (users d) (investmentPlans d)
                           (<[iid := r']> (activeInvestments d)) (transactions d))
    | None => Threw not_found_msg
    end.

(** [tx.transaction.create({ data })]: the log only grows, at its end. *)
Definition transaction_create (t : Transaction.t) : Tx unit :=
  fun d =>
    Returned (tt, mkDb (users d) (investmentPlans d) (activeInvestments d)
                       (transactions d ++ [t])).

(** [prisma.$transaction(body)]: commit what [body] wrote, or roll back. *)
Definition transaction {A} (body : Tx A) (p : Prisma) : Outcome A * Prisma :=
  if connected p then
    match body (db p) with
    | Returned (a, d') => (Returned a, mkPrisma d' (connected p))
    | Threw e => (Threw e, p)
    end
  else (Threw unreachable_msg, p).

(** The join of one row with its user and its plan. *)
Definition include_relations (d : Db) (r : ActiveInvestment.t) : option Investment :=
  match users d !! ActiveInvestment.user_id r,
        investmentPlans d !! ActiveInvestment.plan_id r with
  | Some u, Some pl => Some (mkInvestment r u pl)
  | _, _ => None
  end.

(** The investment with a given id, freshly read. *)
Definition read_investment (d : Db) (iid : string) : option Investment :=
  match activeInvestments d !! iid with
  | Some r => include_relations d r
  | None => None
  end.

(** [prisma.activeInvestment.findMany({ where: { status: 'ACTIVE' }, include })] *)
Definition findMany_active (p : Prisma) : Outcome (list Investment) :=
  if connected p then
    Returned
      (omap (fun kr : string * ActiveInvestment.t =>
               if is_active (ActiveInvestment.status kr.2)
               then include_relations (db p) kr.2 else None)
            (map_to_list (activeInvestments (db p))))
  else Threw unreachable_msg.

(** ** The e-mail service

    [emailService.sendEmail(to, subject, html)] returns or throws; the job
    only looks at which of the two happened. *)

Definition EmailService : Type := string -> Outcome unit.

(** ** Results *)

Module ProcessResult.
(** The object [processInvestment] and [completeInvestment] return; a field
    the source leaves out is [None]. *)
Record t := mk {
  success : bool;
  message : option string;
  profitAmount : option Q;
  completed : option bool;
  emailSent : option bool;
  error : option string;
}.
End ProcessResult.

Module RunError.
Record t := mk {
  investmentId : string;
  userId : string;
  error : option string;
}.
End RunError.

Module Results.
Record t := mk {
  totalInvestments : nat;
  processedInvestments : nat;
  completedInvestments : nat;
  totalProfitDistributed : Q;
  errors : list RunError.t;
  emailsSent : nat;
}.
End Results.

Module RunResult.
(** The object [execute] returns. *)
Record t := mk {
  success : bool;
  message : string;
  error : option string;
  results : option Results.t;
}.
End RunResult.

Record DailyProfitJob := mkJob {
  jobName : string;
  isRunning : bool;
}.

(** [constructor()] *)
Definition new_job : DailyProfitJob := mkJob "DailyProfitCalculation" false.

(** ** The job *)

Definition MS_PER_DAY : Z := 1000 * 60 * 60 * 24.

(** [Math.floor((now - startDate) / (1000 * 60 * 60 * 24))] *)
Definition daysElapsed (now : Z) (investment : Investment) : Z :=
  (now - ActiveInvestment.start_date (row investment)) / MS_PER_DAY.

(** [(amount_usd * daily_percent * days) / 100], on exact rationals; on
    numbers it is [Binary64.profit_for_days]. *)
Definition profit_for_days (investment : Investment) (days : Z) : Q :=
  (ActiveInvestment.amount_usd (row investment)
   * ActiveInvestment.daily_percent (row investment)
   * inject_Z days / 100)%Q.

Definition expectedTotalProfit (now : Z) (investment : Investment) : Q :=
  profit_for_days investment (daysElapsed now investment).

(** The contractual total: the same product over [plan.duration_days]. *)
Definition totalExpectedProfit (investment : Investment) : Q :=
  profit_for_days investment (InvestmentPlan.duration_days (plan investment)).

Definition newProfit (now : Z) (investment : Investment) : Q :=
  (expectedTotalProfit now investment
   - ActiveInvestment.total_earned (row investment))%Q.

(** [Math.max(0, totalExpectedProfit - alreadyEarned)] *)
Definition remainingProfit (investment : Investment) : Q :=
  Qmax 0 (totalExpectedProfit investment
          - ActiveInvestment.total_earned (row investment))%Q.

(** [x > 0] on numbers. *)
Definition positive (x : Q) : bool := negb (Qle_bool x 0).

(** [try { await send(...); emailSent = true } catch { }] *)
Definition try_send (mail : EmailService) (to : string) : bool :=
  match mail to with Returned _ => true | Threw _ => false end.

Definition failure (e : string) : ProcessResult.t :=
  ProcessResult.mk false None None None None (Some e).

Definition skipped (msg : string) : ProcessResult.t :=
  ProcessResult.mk true (Some msg) None None None None.

(** The body of the transaction of [completeInvestment]. *)
Definition complete_tx (now : Z) (investment : Investment)
  : Tx (option User.t * ActiveInvestment.t * Q) :=
  let r := row investment in
  let total := totalExpectedProfit investment in
  let remaining := remainingProfit investment in
  (updatedUser <-
     (if positive remaining then
        (u <- user_update_increment (ActiveInvestment.user_id r) remaining ;;
         _ <- transaction_create
                (Transaction.mk (ActiveInvestment.user_id r) PROFIT remaining
                   (Transaction.FinalProfit (InvestmentPlan.name (plan investment)))) ;;
         tx_ret (Some u))
      else tx_ret None) ;;
   completedInvestment <-
     activeInvestment_update (ActiveInvestment.id r)
       (ActiveInvestment.complete total now) ;;
   _ <- transaction_create
          (Transaction.mk (ActiveInvestment.user_id r) INVESTMENT 0
             (Transaction.InvestmentCompleted
                (InvestmentPlan.name (plan investment)) total)) ;;
   tx_ret (updatedUser, completedInvestment, remaining))%tx.

Definition completeInvestment (mail : EmailService) (now : Z)
    (investment : Investment) (prisma : Prisma) : ProcessResult.t * Prisma :=
  match transaction (complete_tx now investment) prisma with
  | (Returned _, prisma') =>
      let emailSent := try_send mail (User.email (user investment)) in
      (ProcessResult.mk true (Some "Investment completed successfully")
         (Some (remainingProfit investment)) (Some true) (Some emailSent) None,
       prisma')
  | (Threw e, prisma') => (failure e, prisma')
  end.

(** The body of the transaction of [processInvestment]. *)
Definition profit_tx (now : Z) (investment : Investment)
  : Tx (User.t * ActiveInvestment.t * Q) :=
  let r := row investment in
  let profit := newProfit now investment in
  (updatedUser <- user_update_increment (ActiveInvestment.user_id r) profit ;;
   updatedInvestment <-
     activeInvestment_update (ActiveInvestment.id r)
       (ActiveInvestment.increment_earned profit now) ;;
   _ <- transaction_create
          (Transaction.mk (ActiveInvestment.user_id r) PROFIT profit
             (Transaction.DailyProfit (InvestmentPlan.name (plan investment))
                (ActiveInvestment.daily_percent r))) ;;
   tx_ret (updatedUser, updatedInvestment, profit))%tx.

Definition processInvestment (mail : EmailService) (now : Z)
    (investment : Investment) (prisma : Prisma) : ProcessResult.t * Prisma :=
  if (ActiveInvestment.end_date (row investment) <? now)%Z then
    completeInvestment mail now investment prisma
  else if (daysElapsed now investment <? 1)%Z then
    (skipped "Investment too recent for profit", prisma)
  else if Qle_bool (newProfit now investment) 0 then
    (skipped "No new profit to distribute", prisma)
  else
    match transaction (profit_tx now investment) prisma with
    | (Returned _, prisma') =>
        let emailSent := try_send mail (User.email (user investment)) in
        (ProcessResult.mk true
           (Some "Profit calculated and distributed successfully")
           (Some (newProfit now investment)) None (Some emailSent) None,
         prisma')
    | (Threw e, prisma') => (failure e, prisma')
    end.

(** JavaScript truthiness of an optional boolean field. *)
Definition truthy (b : option bool) : bool := default false b.

Definition initial_results : Results.t := Results.mk 0 0 0 0 [] 0.

(** One iteration of the [for ... of] loop of [execute].  The amounts of
    [totalProfitDistributed] are added exactly here, where the code adds
    numbers; the statements on a run are about the counters and the errors,
    and about runs that distribute nothing. *)
Definition record_result (investment : Investment) (result : ProcessResult.t)
    (results : Results.t) : Results.t :=
  if ProcessResult.success result then
    Results.mk (Results.totalInvestments results)
      (S (Results.processedInvestments results))
      (if truthy (ProcessResult.completed result)
       then S (Results.completedInvestments results)
       else Results.completedInvestments results)
      (Results.totalProfitDistributed results
       + default 0%Q (ProcessResult.profitAmount result))%Q
      (Results.errors results)
      (if truthy (ProcessResult.emailSent result)
       then S (Results.emailsSent results)
       else Results.emailsSent results)
  else
    Results.mk (Results.totalInvestments results)
      (Results.processedInvestments results)
      (Results.completedInvestments results)
      (Results.totalProfitDistributed results)
      (Results.errors results ++
       [RunError.mk (ActiveInvestment.id (row investment))
          (ActiveInvestment.user_id (row investment))
          (ProcessResult.error result)])
      (Results.emailsSent results).

Fixpoint process_all (mail : EmailService) (now : Z)
    (activeInvestments : list Investment) (results : Results.t)
    (prisma : Prisma) : Results.t * Prisma :=
  match activeInvestments with
  | [] => (results, prisma)
  | investment :: rest =>
      let '(result, prisma') := processInvestment mail now investment prisma in
      process_all mail now rest (record_result investment result results) prisma'
  end.

Definition with_total (n : nat) (results : Results.t) : Results.t :=
  Results.mk n (Results.processedInvestments results)
    (Results.completedInvestments results)
    (Results.totalProfitDistributed results)
    (Results.errors results) (Results.emailsSent results).

Definition already_running : RunResult.t :=
  RunResult.mk false "Job already running" None None.

(** [this.isRunning = value] *)
Definition set_isRunning (value : bool) (job : DailyProfitJob) : DailyProfitJob :=
  mkJob (jobName job) value.

(** [execute()]: the result, the job object and the store afterwards.  The
    guard returns before the [try]; past it the flag is set, and the
    [finally] block clears it on both ways out of the [try].  The [catch]
    around the call of [processInvestment] is never entered, since
    [processInvestment] turns every error into a result of its own. *)
Definition execute (mail : EmailService) (now : Z) (job : DailyProfitJob)
    (prisma : Prisma) : RunResult.t * DailyProfitJob * Prisma :=
  if isRunning job then (already_running, job, prisma)
  else
    let job := set_isRunning true job in
    let results := initial_results in
    match findMany_active prisma with
    | Returned activeInvestments =>
        let '(results', prisma') :=
          process_all mail now activeInvestments
            (with_total (length activeInvestments) results) prisma in
        (RunResult.mk true "Daily profit calculation completed successfully"
           None (Some results'),
         set_isRunning false job, prisma')
    | Threw e =>
        (RunResult.mk false "Daily profit calculation failed" (Some e)
           (Some results),
         set_isRunning false job, prisma)
    end.

(** ** Observations used in the statements *)

(** [investment] is what a fresh read of its row returns. *)
Definition fresh (d : Db) (investment : Investment) : Prop :=
  read_investment d (ActiveInvestment.id (row investment)) = Some investment.



(** Sum of the amounts of a list of ledger entries. *)
Definition ledger_sum (l : list Transaction.t) : Q :=
  foldr (fun t acc => (Transaction.amount_usd t + acc)%Q) 0%Q l.

(** The store after the transaction of [processInvestment] committed on a
    fresh investment. *)
Definition credited_db (now : Z) (investment : Investment) (d : Db) : Db :=
  let r := row investment in
  let profit := newProfit now investment in
  mkDb (<[ActiveInvestment.user_id r :=
            User.increment_balance profit (user investment)]> (users d))
       (investmentPlans d)
       (<[ActiveInvestment.id r :=
            ActiveInvestment.increment_earned profit now r]> (activeInvestments d))
       (transactions d ++
        [Transaction.mk (ActiveInvestment.user_id r) PROFIT profit
           (Transaction.DailyProfit (InvestmentPlan.name (plan investment))
              (ActiveInvestment.daily_percent r))]).


Definition completed_result (mail : EmailService) (investment : Investment)
  : ProcessResult.t :=
  ProcessResult.mk true (Some "Investment completed successfully")
    (Some (remainingProfit investment)) (Some true)
    (Some (try_send mail (User.email (user investment)))) None.

Definition credited_result (mail : EmailService) (now : Z)
    (investment : Investment) : ProcessResult.t :=
  ProcessResult.mk true (Some "Profit calculated and distributed successfully")
    (Some (newProfit now investment)) None
    (Some (try_send mail (User.email (user investment)))) None.

(** The investment as read back after a committed credit. *)
Definition credited_investment (now : Z) (investment : Investment) : Investment :=
  mkInvestment
    (ActiveInvestment.increment_earned (newProfit now investment) now (row investment))
    (User.increment_balance (newProfit now investment) (user investment))
    (plan investment).



(** The result on a reachable store that still holds the user and the row:
    a function of the snapshot alone. *)
Definition result_of_snapshot (mail : EmailService) (now : Z)
    (investment : Investment) : ProcessResult.t :=
  if (ActiveInvestment.end_date (row investment) <? now)%Z then
    completed_result mail investment
  else if (daysElapsed now investment <? 1)%Z then
    skipped "Investment too recent for profit"
  else if Qle_bool (newProfit now investment) 0 then
    skipped "No new profit to distribute"
  else credited_result mail now investment.

(** The per-investment results of one run, in processing order. *)
Fixpoint outcomes (mail : EmailService) (now : Z)
    (activeInvestments : list Investment) (prisma : Prisma)
  : list ProcessResult.t :=
  match activeInvestments with
  | [] => []
  | investment :: rest =>
      let '(result, prisma') := processInvestment mail now investment prisma in
      result :: outcomes mail now rest prisma'
  end.

Definition succeeded (l : list ProcessResult.t) : nat :=
  length (filter (fun r => ProcessResult.success r = true) l).

Definition failed (l : list ProcessResult.t) : nat :=
  length (filter (fun r => ProcessResult.success r = false) l).

(** The accrual of lines 150-152 on binary64 numbers, as JavaScript
    evaluates it. *)
Definition newProfit_binary64 (amount_usd daily_percent days total_earned : PrimFloat.float)
  : PrimFloat.float :=
  PrimFloat.sub
    (PrimFloat.div (PrimFloat.mul (PrimFloat.mul amount_usd daily_percent) days)
                   100%float)
    total_earned.

(** ** Sample data: the Starter plan of the seed script and the investment of
    the test script (100 USD, 1.5 % a day, 30 days) *)

Definition day (n : Z) : Z := (n * MS_PER_DAY)%Z.

Definition mail_ok : EmailService := fun _ => Returned tt.

Definition starter : InvestmentPlan.t := InvestmentPlan.mk "Starter" (3 # 2) 30.

Definition alice (balance : Q) : User.t :=
  User.mk "u1" "Test User" "test@example.com" balance.

(** Started at time 0, so [day n] is [n] days after the start. *)
Definition position (st : InvestmentStatus) (earned : Q) : ActiveInvestment.t :=
  ActiveInvestment.mk "i1" "u1" "p1" 100 0 (day 30) (3 # 2) st earned 0.

Definition store (balance : Q) (st : InvestmentStatus) (earned : Q) : Prisma :=
  mkPrisma
    (mkDb {[ "u1" := alice balance ]} {[ "p1" := starter ]}
          {[ "i1" := position st earned ]} [])
    true.

Definition snapshot (balance : Q) (st : InvestmentStatus) (earned : Q) : Investment :=
  mkInvestment (position st earned) (alice balance) starter.

(** The same tables behind a server that cannot be reached. *)
Definition unreachable (p : Prisma) : Prisma := mkPrisma (db p) false.

Definition balance_of (p : Prisma) (uid : string) : option Q :=
  User.balance_usd <$> users (db p) !! uid.

Definition earned_of (p : Prisma) (iid : string) : option Q :=
  ActiveInvestment.total_earned <$> activeInvestments (db p) !! iid.

Definition status_of (p : Prisma) (iid : string) : option InvestmentStatus :=
  ActiveInvestment.status <$> activeInvestments (db p) !! iid.

(** ** Observations on whole runs *)

(** The rows of the investment table are stored under their own id. *)
Definition keyed_by_id (d : Db) : Prop :=
  forall k r, activeInvestments d !! k = Some r -> ActiveInvestment.id r = k.

(** A result without its [emailSent] field. *)
Definition forget_email (r : ProcessResult.t) : ProcessResult.t :=
  ProcessResult.mk (ProcessResult.success r) (ProcessResult.message r)
    (ProcessResult.profitAmount r) (ProcessResult.completed r) None
    (ProcessResult.error r).

(** A summary without its [emailsSent] counter. *)
Definition forget_emails (r : Results.t) : Results.t :=
  Results.mk (Results.totalInvestments r) (Results.processedInvestments r)
    (Results.completedInvestments r) (Results.totalProfitDistributed r)
    (Results.errors r) 0.

(** What a committed transaction of the job does to the store: the row of
    the investment is replaced, the balance of its user is either left
    alone or incremented by [delta], and entries worth [delta] in total are
    appended to the ledger. *)
Definition committed (investment : Investment) (delta : Q) (p p' : Prisma) : Prop :=
  exists stored' users' written,
    is_Some (activeInvestments (db p) !! ActiveInvestment.id (row investment))
    /\ (users' = users (db p)
        \/ exists u,
             users (db p) !! ActiveInvestment.user_id (row investment) = Some u
             /\ users' = <[ActiveInvestment.user_id (row investment) :=
                            User.increment_balance delta u]> (users (db p)))
    /\ p' = mkPrisma
              (mkDb users' (investmentPlans (db p))
                 (<[ActiveInvestment.id (row investment) := stored']>
                    (activeInvestments (db p)))
                 (transactions (db p) ++ written))
              true
    /\ connected p = true
    /\ (ledger_sum written == delta)%Q
    /\ Forall (fun t => (0 <= Transaction.amount_usd t)%Q) written.

(** The store [p'] holds what [p] held, and possibly more money: same
    plans, same users with balances at least as high, same investment ids,
    and a ledger that extends the one of [p] by entries with amounts that are
    not negative. *)
Definition only_adds (p p' : Prisma) : Prop :=
  connected p' = connected p
  /\ investmentPlans (db p') = investmentPlans (db p)
  /\ (forall uid,
        match users (db p) !! uid, users (db p') !! uid with
        | Some u, Some u' =>
            User.id u' = User.id u /\ User.name u' = User.name u
            /\ User.email u' = User.email u
            /\ (User.balance_usd u <= User.balance_usd u')%Q
        | None, None => True
        | _, _ => False
        end)
  /\ (forall iid,
        is_Some (activeInvestments (db p') !! iid)
        <-> is_Some (activeInvestments (db p) !! iid))
  /\ exists written,
       transactions (db p') = (transactions (db p) ++ written)%list
       /\ Forall (fun t => (0 <= Transaction.amount_usd t)%Q) written.

(** The row stored under [k] is COMPLETED. *)
Definition completed_at (d : Db) (k : string) : Prop :=
  exists r,
    activeInvestments d !! k = Some r /\ ActiveInvestment.status r = COMPLETED.

(** The sample store after its investment row was deleted. *)
Definition store_without_row (balance : Q) : Prisma :=
  mkPrisma (mkDb {[ "u1" := alice balance ]} {[ "p1" := starter ]} ∅ []) true.

(** ** The job scheduler ([backend/src/jobs/jobScheduler.js])

    node-cron is modelled by what the scheduler uses of it: [cron.schedule]
    with [scheduled: false] creates a task that is not started, or throws
    when the expression is not valid ([validate]); [task.start()] and
    [task.stop()] set whether the task fires.  Tasks live in a heap, and the
    entries of [scheduledJobs] hold handles into it, so that a task whose
    entry was overwritten or deleted is still there. *)

Module Cron.
Inductive callback :=
| DailyProfit
| Custom (jobName : string).

Record task := mk {
  expression : string;
  timezone : string;
  action : callback;
  started : bool;
}.

Definition set_started (b : bool) (t : task) : task :=
  mk (expression t) (timezone t) (action t) b.
End Cron.

Module ScheduledJob.
Record t := mk {
  task : nat;
  name : string;
  cronExpression : string;
  description : string;
  isRunning : bool;
}.

(** [job.isRunning = value] *)
Definition set_isRunning (value : bool) (job : t) : t :=
  mk (task job) (name job) (cronExpression job) (description job) value.
End ScheduledJob.

Record JobScheduler := mkScheduler {
  tasks : list Cron.task;
  scheduledJobs : gmap string ScheduledJob.t;
  isInitialized : bool;
}.

(** [constructor()], with no task created yet. *)
Definition new_scheduler : JobScheduler := mkScheduler [] ∅ false.

(** [config.jobs] *)
Record JobsConfig := mkJobsConfig {
  profitJobEnabled : bool;
  profitJobTimezone : string;
}.

(** [s || d] on strings: the empty string is falsy. *)
Definition or_else (s d : string) : string :=
  if decide (s = EmptyString) then d else s.

(** [o || d] on a field that may be left out. *)
Definition field_or_else (o : option string) (d : string) : string :=
  or_else (default EmptyString o) d.

(** [cron.schedule(expression, callback, { scheduled: false, timezone })] *)
Definition cron_schedule (validate : string -> bool) (expression timezone : string)
    (action : Cron.callback) (s : JobScheduler) : Outcome (nat * JobScheduler) :=
  if validate expression then
    Returned (length (tasks s),
              mkScheduler (tasks s ++ [Cron.mk expression timezone action false])
                (scheduledJobs s) (isInitialized s))
  else Threw (expression ++ " is a invalid expression").

(** [task.start()] and [task.stop()] on the task behind a handle. *)
Definition task_set (handle : nat) (b : bool) (s : JobScheduler) : JobScheduler :=
  mkScheduler (alter (Cron.set_started b) handle (tasks s))
    (scheduledJobs s) (isInitialized s).

(** [this.scheduledJobs.set(jobName, job)] *)
Definition jobs_set (jobName : string) (job : ScheduledJob.t) (s : JobScheduler)
  : JobScheduler :=
  mkScheduler (tasks s) (<[jobName := job]> (scheduledJobs s)) (isInitialized s).

Definition daily_expression : string := "0 0 * * *".

Definition scheduleDailyProfitJob (validate : string -> bool) (config : JobsConfig)
    (s : JobScheduler) : Outcome JobScheduler :=
  match cron_schedule validate daily_expression
          (or_else (profitJobTimezone config) "UTC") Cron.DailyProfit s with
  | Returned (task, s1) =>
      let s2 :=
        jobs_set "dailyProfitJob"
          (ScheduledJob.mk task "Daily Profit Calculation" daily_expression
             "Calculates and distributes daily profits for active investments"
             false) s1 in
      Returned (task_set task true s2)
  | Threw e => Threw e
  end.

Definition initialize (validate : string -> bool) (config : JobsConfig)
    (s : JobScheduler) : Outcome JobScheduler :=
  if isInitialized s then Returned s
  else if negb (profitJobEnabled config) then Returned s
  else
    match scheduleDailyProfitJob validate config s with
    | Returned s' => Returned (mkScheduler (tasks s') (scheduledJobs s') true)
    | Threw e => Threw e
    end.

Definition stopJob (jobName : string) (s : JobScheduler) : bool * JobScheduler :=
  match scheduledJobs s !! jobName with
  | Some job =>
      (true,
       jobs_set jobName (ScheduledJob.set_isRunning false job)
         (task_set (ScheduledJob.task job) false s))
  | None => (false, s)
  end.

Definition startJob (jobName : string) (s : JobScheduler) : bool * JobScheduler :=
  match scheduledJobs s !! jobName with
  | Some job =>
      (true,
       jobs_set jobName (ScheduledJob.set_isRunning true job)
         (task_set (ScheduledJob.task job) true s))
  | None => (false, s)
  end.

(** [for (const [jobName, job] of this.scheduledJobs) { job.task.stop();
    job.isRunning = false }] *)
Definition stopAllJobs (s : JobScheduler) : JobScheduler :=
  mkScheduler
    (map_fold (fun _ job ts => alter (Cron.set_started false) (ScheduledJob.task job) ts)
       (tasks s) (scheduledJobs s))
    (ScheduledJob.set_isRunning false <$> scheduledJobs s)
    (isInitialized s).

Module Options.
(** The [options] argument of [scheduleCustomJob]; a field left out is [None]. *)
Record t := mk {
  timezone : option string;
  displayName : option string;
  description : option string;
  startImmediately : option bool;
}.
End Options.

Definition scheduleCustomJob (validate : string -> bool) (config : JobsConfig)
    (jobName cronExpression : string) (options : Options.t) (s : JobScheduler)
  : Outcome (bool * JobScheduler) :=
  match scheduledJobs s !! jobName with
  | Some _ => Returned (false, s)
  | None =>
      match cron_schedule validate cronExpression
              (field_or_else (Options.timezone options)
                 (or_else (profitJobTimezone config) "UTC"))
              (Cron.Custom jobName) s with
      | Returned (task, s1) =>
          let s2 :=
            jobs_set jobName
              (ScheduledJob.mk task
                 (field_or_else (Options.displayName options) jobName)
                 cronExpression
                 (field_or_else (Options.description options) "Custom scheduled job")
                 false) s1 in
          Returned (true,
                    match Options.startImmediately options with
                    | Some false => s2
                    | _ => task_set task true s2
                    end)
      | Threw e => Threw e
      end
  end.

Definition removeJob (jobName : string) (s : JobScheduler) : bool * JobScheduler :=
  match scheduledJobs s !! jobName with
  | Some job =>
      let s1 := task_set (ScheduledJob.task job) false s in
      (true, mkScheduler (tasks s1) (delete jobName (scheduledJobs s1))
               (isInitialized s1))
  | None => (false, s)
  end.

Definition shutdown (s : JobScheduler) : JobScheduler :=
  mkScheduler (tasks (stopAllJobs s)) ∅ false.

(** [triggerDailyProfitJob()]: [execute] never throws, so the [catch] that
    rethrows is not entered. *)
Definition triggerDailyProfitJob (mail : EmailService) (now : Z)
    (job : DailyProfitJob) (prisma : Prisma) : RunResult.t * DailyProfitJob * Prisma :=
  execute mail now job prisma.

(** Every registered job refers to a task that exists, and two jobs never
    share a task. *)
Definition handles_ok (s : JobScheduler) : Prop :=
  (forall jobName job,
     scheduledJobs s !! jobName = Some job ->
     ScheduledJob.task job < length (tasks s))
  /\ (forall n1 n2 j1 j2,
        scheduledJobs s !! n1 = Some j1 ->
        scheduledJobs s !! n2 = Some j2 ->
        ScheduledJob.task j1 = ScheduledJob.task j2 -> n1 = n2).

(** Whether the task behind a handle fires. *)
Definition task_started (s : JobScheduler) (handle : nat) : option bool :=
  Cron.started <$> tasks s !! handle.

(** The operations an operator or the server can invoke. *)
Inductive SchedulerOp :=
| OpInitialize
| OpStart (jobName : string)
| OpStop (jobName : string)
| OpStopAll
| OpCustom (jobName cronExpression : string) (options : Options.t)
| OpRemove (jobName : string)
| OpShutdown.

(** One operation; a call that throws leaves the scheduler as it was. *)
Definition scheduler_step (validate : string -> bool) (config : JobsConfig)
    (s : JobScheduler) (op : SchedulerOp) : JobScheduler :=
  match op with
  | OpInitialize =>
      match initialize validate config s with Returned s' => s' | Threw _ => s end
  | OpStart n => (startJob n s).2
  | OpStop n => (stopJob n s).2
  | OpStopAll => stopAllJobs s
  | OpCustom n e o =>
      match scheduleCustomJob validate config n e o s with
      | Returned (_, s') => s'
      | Threw _ => s
      end
  | OpRemove n => (removeJob n s).2
  | OpShutdown => shutdown s
  end.

Definition scheduler_run (validate : string -> bool) (config : JobsConfig)
    (ops : list SchedulerOp) (s : JobScheduler) : JobScheduler :=
  foldl (scheduler_step validate config) s ops.

(** Sample environment: every expression but the empty one is accepted. *)
Definition accepts (expression : string) : bool :=
  bool_decide (expression <> EmptyString).

Definition jobs_on : JobsConfig := mkJobsConfig true "UTC".

Definition no_options : Options.t := Options.mk None None None None.

(** A scheduler on which a custom job was registered under the name of the
    daily job before [initialize] ran. *)
Definition custom_daily : JobScheduler :=
  scheduler_step accepts jobs_on new_scheduler
    (OpCustom "dailyProfitJob" "*/5 * * * *" no_options).

Definition custom_daily_job : ScheduledJob.t :=
  ScheduledJob.mk 0 "dailyProfitJob" "*/5 * * * *" "Custom scheduled job" false.

(** ** The admin endpoints ([backend/src/controllers/jobController.js])

    The two handlers that drive the job and the scheduler.  A handler either
    sends a response or throws; what it throws reaches the error middleware
    and is either an HTTP error made with [createError] or the error of a
    store call. *)

Inductive HandlerError :=
| HttpError (status : nat) (message messageKey : string)
| StoreError (message : string).

Inductive Reply (A : Type) : Type :=
| Sent (response : A)
| Thrown (e : HandlerError).
Arguments Sent {A} response.
Arguments Thrown {A} e.

Module AdminLog.
(** [action] and [details] of an admin log entry. *)
Inductive action :=
| TRIGGER_DAILY_PROFIT_JOB (result : bool) (processedInvestments : option nat)
    (totalProfitDistributed : option Q) (errors : nat)
| TRIGGER_DAILY_PROFIT_JOB_FAILED (error triggeredBy : string)
| JOB_ACTION (action jobName adminEmail : string).

Record t := mk {
  admin_id : string;
  entry : action;
}.
End AdminLog.

(** [req.user] *)
Record Admin := mkAdmin {
  admin_user_id : string;
  admin_email : string;
}.

(** The singletons the handlers work on, and the admin log table. *)
Record Backend := mkBackend {
  the_job : DailyProfitJob;
  the_store : Prisma;
  the_scheduler : JobScheduler;
  adminLogs : list AdminLog.t;
}.

(** [prisma.adminLog.create({ data })] *)
Definition adminLog_create (p : Prisma) (logs : list AdminLog.t) (l : AdminLog.t)
  : Outcome (list AdminLog.t) :=
  if connected p then Returned (logs ++ [l])%list else Threw unreachable_msg.

Module TriggerResponse.
Record t := mk {
  success : bool;
  message : string;
  messageKey : string;
  jobResult : RunResult.t;
  triggeredBy : string;
}.
End TriggerResponse.

(** [triggerDailyProfitJob(req, res)] *)
Definition trigger_handler (mail : EmailService) (now : Z) (admin : Admin)
    (b : Backend) : Reply TriggerResponse.t * Backend :=
  let '(result, job', prisma') :=
    triggerDailyProfitJob mail now (the_job b) (the_store b) in
  let log :=
    AdminLog.mk (admin_user_id admin)
      (AdminLog.TRIGGER_DAILY_PROFIT_JOB (RunResult.success result)
         (Results.processedInvestments <$> RunResult.results result)
         (Results.totalProfitDistributed <$> RunResult.results result)
         (default 0 (length <$> (Results.errors <$> RunResult.results result)))) in
  match adminLog_create prisma' (adminLogs b) log with
  | Returned logs' =>
      (Sent (TriggerResponse.mk true
               (if RunResult.success result
                then "Daily profit job executed successfully"
                else "Daily profit job completed with errors")
               (if RunResult.success result
                then "jobs.profit_job_success" else "jobs.profit_job_partial")
               result (admin_email admin)),
       mkBackend job' prisma' (the_scheduler b) logs')
  | Threw e =>
      let failed :=
        AdminLog.mk (admin_user_id admin)
          (AdminLog.TRIGGER_DAILY_PROFIT_JOB_FAILED e (admin_email admin)) in
      (Thrown (StoreError e),
       mkBackend job' prisma' (the_scheduler b)
         match adminLog_create prisma' (adminLogs b) failed with
         | Returned logs' => logs'
         | Threw _ => adminLogs b
         end)
  end.

Module ControlResponse.
Record t := mk {
  success : bool;
  message : string;
  messageKey : string;
  jobName : string;
  action : string;
  performedBy : string;
}.
End ControlResponse.

(** The text [Invalid action. Use "start" or "stop"]. *)
Definition invalid_action_message : string :=
  let quote := String (Ascii.ascii_of_nat 34) EmptyString in
  "Invalid action. Use " ++ quote ++ "start" ++ quote ++ " or "
  ++ quote ++ "stop" ++ quote.

(** [action.toUpperCase()] on the two actions the handler lets through. *)
Definition action_upper (action : string) : string :=
  if decide (action = "start") then "START" else "STOP".

(** [controlJob(req, res)] with [req.params.jobName] and [req.body.action]. *)
Definition control_handler (admin : Admin) (jobName action : string) (b : Backend)
  : Reply ControlResponse.t * Backend :=
  if negb (bool_decide (action ∈ ["start"; "stop"])) then
    (Thrown (HttpError 400 invalid_action_message "jobs.invalid_action"), b)
  else
    let '(result, scheduler') :=
      if decide (action = "start") then startJob jobName (the_scheduler b)
      else stopJob jobName (the_scheduler b) in
    if negb result then
      (Thrown (HttpError 404 "Job not found" "jobs.job_not_found"),
       mkBackend (the_job b) (the_store b) scheduler' (adminLogs b))
    else
      match adminLog_create (the_store b) (adminLogs b)
              (AdminLog.mk (admin_user_id admin)
                 (AdminLog.JOB_ACTION (action_upper action ++ "_JOB") jobName
                    (admin_email admin))) with
      | Returned logs' =>
          (Sent (ControlResponse.mk true ("Job " ++ action ++ "ed successfully")
                   ("jobs.job_" ++ action ++ "ed") jobName action
                   (admin_email admin)),
           mkBackend (the_job b) (the_store b) scheduler' logs')
      | Threw e =>
          (Thrown (StoreError e),
           mkBackend (the_job b) (the_store b) scheduler' (adminLogs b))
      end.

Definition root : Admin := mkAdmin "a1" "admin@example.com".

(** ** The arithmetic as JavaScript evaluates it

    The amounts are held in [Decimal] columns, kept here as exact decimals
    in [Q].  The job reads them with [parseFloat], computes on binary64
    numbers and hands binary64 numbers back to Prisma, which stores the
    decimal that [Number.prototype.toString] prints: the shortest decimal
    that reads back as the same number.  The functions below follow that
    path, for finite numbers in the normal range. *)

(** Nearest integer to [n / d], ties to even; [0 <= n], [0 < d]. *)
Definition round_div (n d : Z) : Z :=
  let q := (n / d)%Z in
  match (2 * (n mod d) ?= d)%Z with
  | Lt => q
  | Gt => (q + 1)%Z
  | Eq => if Z.even q then q else (q + 1)%Z
  end.

(** Numerator and denominator of [n / d / 2^e]. *)
Definition scaled (n d e : Z) : Z * Z :=
  if (0 <=? e)%Z then (n, (d * 2 ^ e)%Z) else ((n * 2 ^ (- e))%Z, d).

Definition in_binade (n d e : Z) : bool :=
  let '(a, b) := scaled n d e in
  (2 ^ 52 <=? a / b)%Z && (a / b <? 2 ^ 53)%Z.

(** The binary64 number nearest to [n / d], for [0 < n], [0 < d]: a 53-bit
    significand, rounded to nearest, ties to even. *)
Definition nearest_double (n d : Z) : float :=
  let e0 := (Z.log2 n - Z.log2 d - 52)%Z in
  let e := if in_binade n d e0 then e0
           else if in_binade n d (e0 - 1) then (e0 - 1)%Z else (e0 + 1)%Z in
  let '(a, b) := scaled n d e in
  SF2Prim (S754_finite false (Z.to_pos (round_div a b)) e).

(** [parseFloat(decimal)] *)
Definition parseFloat (q : Q) : float :=
  match Qnum q with
  | Z0 => 0%float
  | Zpos n => nearest_double (Zpos n) (Zpos (Qden q))
  | Zneg n => PrimFloat.opp (nearest_double (Zpos n) (Zpos (Qden q)))
  end.

(** The rational a finite binary64 number stands for. *)
Definition exact (x : float) : Q :=
  match Prim2SF x with
  | S754_finite s m e =>
      let v := if (0 <=? e)%Z then inject_Z (Zpos m * 2 ^ e)
               else Qmake (Zpos m) (Z.to_pos (2 ^ (- e))) in
      if s then Qopp v else v
  | _ => 0%Q
  end.

(** [a / b] brought into [1, 10) with the power of ten taken out. *)
Fixpoint normalise (fuel : nat) (a b t : Z) : Z * Z * Z :=
  match fuel with
  | O => (a, b, t)
  | S fuel =>
      if (10 * b <=? a)%Z then normalise fuel a (10 * b)%Z (t + 1)%Z
      else if (a <? b)%Z then normalise fuel (10 * a)%Z b (t - 1)%Z
      else (a, b, t)
  end.

(** [s * 10^k] *)
Definition decimal (s k : Z) : Q :=
  if (0 <=? k)%Z then inject_Z (s * 10 ^ k)
  else Qmake s (Z.to_pos (10 ^ (- k))).

(** The decimal with [p] digits nearest to [a / b * 10^t] that reads back
    as [x], if one of the two neighbours does. *)
Definition digits_candidate (x : float) (a b t p : Z) : option Q :=
  let num := (a * 10 ^ (p - 1))%Z in
  let lo := (num / b)%Z in
  let k := (t - p + 1)%Z in
  let reads_back s := PrimFloat.eqb (parseFloat (decimal s k)) x in
  let lo_first := match (2 * (num mod b) ?= b)%Z with
                  | Lt => true
                  | Gt => false
                  | Eq => Z.even lo
                  end in
  let c1 := if lo_first then lo else (lo + 1)%Z in
  let c2 := if lo_first then (lo + 1)%Z else lo in
  if reads_back c1 then Some (decimal c1 k)
  else if reads_back c2 then Some (decimal c2 k)
  else None.

(** The shortest such decimal, trying 1, 2, ... digits; 17 always do. *)
Fixpoint shortest (x : float) (a b t : Z) (fuel : nat) (p : Z) : Q :=
  match fuel with
  | O => decimal (round_div (a * 10 ^ 16) b) (t - 16)
  | S fuel =>
      match digits_candidate x a b t p with
      | Some q => q
      | None => shortest x a b t fuel (p + 1)%Z
      end
  end.

(** The decimal Prisma stores for a JavaScript number. *)
Definition toDecimal (x : float) : Q :=
  let v := exact x in
  match Qnum v with
  | Z0 => 0%Q
  | Zpos n =>
      let '(a, b, t) := normalise 700 (Zpos n) (Zpos (Qden v)) 0 in
      Qred (shortest x a b t 17 1)
  | Zneg n =>
      let '(a, b, t) := normalise 700 (Zpos n) (Zpos (Qden v)) 0 in
      Qred (Qopp (shortest (PrimFloat.opp x) a b t 17 1))
  end.

(** [Math.max(0, x)] *)
Definition Math_max_0 (x : float) : float :=
  if PrimFloat.is_nan x then PrimFloat.nan
  else if PrimFloat.ltb 0 x then x else 0%float.

Module Binary64.
(** The result object with [profitAmount] as the number it is. *)
Record result := mkResult {
  success : bool;
  message : option string;
  profitAmount : option float;
  completed : option bool;
  emailSent : option bool;
  error : option string;
}.

Definition failure (e : string) : result :=
  mkResult false None None None None (Some e).

Definition skipped (msg : string) : result :=
  mkResult true (Some msg) None None None None.

(** [(parseFloat(amount_usd) * parseFloat(daily_percent) * days) / 100] *)
Definition profit_for_days (investment : Investment) (days : Z) : float :=
  PrimFloat.div
    (PrimFloat.mul
       (PrimFloat.mul
          (parseFloat (ActiveInvestment.amount_usd (row investment)))
          (parseFloat (ActiveInvestment.daily_percent (row investment))))
       (parseFloat (inject_Z days)))
    100%float.

Definition expectedTotalProfit (now : Z) (investment : Investment) : float :=
  profit_for_days investment (daysElapsed now investment).

Definition totalExpectedProfit (investment : Investment) : float :=
  profit_for_days investment (InvestmentPlan.duration_days (plan investment)).

(** [expectedTotalProfit - parseFloat(total_earned)] *)
Definition newProfit (now : Z) (investment : Investment) : float :=
  PrimFloat.sub (expectedTotalProfit now investment)
    (parseFloat (ActiveInvestment.total_earned (row investment))).

(** [Math.max(0, totalExpectedProfit - parseFloat(total_earned))] *)
Definition remainingProfit (investment : Investment) : float :=
  Math_max_0
    (PrimFloat.sub (totalExpectedProfit investment)
       (parseFloat (ActiveInvestment.total_earned (row investment)))).

Definition complete_tx (now : Z) (investment : Investment)
  : Tx (option User.t * ActiveInvestment.t * float) :=
  let r := row investment in
  let total := totalExpectedProfit investment in
  let remaining := remainingProfit investment in
  (updatedUser <-
     (if PrimFloat.ltb 0 remaining then
        (u <- user_update_increment (ActiveInvestment.user_id r)
                (toDecimal remaining) ;;
         _ <- transaction_create
                (Transaction.mk (ActiveInvestment.user_id r) PROFIT
                   (toDecimal remaining)
                   (Transaction.FinalProfit (InvestmentPlan.name (plan investment)))) ;;
         tx_ret (Some u))
      else tx_ret None) ;;
   completedInvestment <-
     activeInvestment_update (ActiveInvestment.id r)
       (ActiveInvestment.complete (toDecimal total) now) ;;
   _ <- transaction_create
          (Transaction.mk (ActiveInvestment.user_id r) INVESTMENT 0
             (Transaction.InvestmentCompleted
                (InvestmentPlan.name (plan investment)) (toDecimal total))) ;;
   tx_ret (updatedUser, completedInvestment, remaining))%tx.

Definition completeInvestment (mail : EmailService) (now : Z)
    (investment : Investment) (prisma : Prisma) : result * Prisma :=
  match transaction (complete_tx now investment) prisma with
  | (Returned _, prisma') =>
      let emailSent := try_send mail (User.email (user investment)) in
      (mkResult true (Some "Investment completed successfully")
         (Some (remainingProfit investment)) (Some true) (Some emailSent) None,
       prisma')
  | (Threw e, prisma') => (failure e, prisma')
  end.

Definition profit_tx (now : Z) (investment : Investment)
  : Tx (User.t * ActiveInvestment.t * float) :=
  let r := row investment in
  let profit := newProfit now investment in
  (updatedUser <-
     user_update_increment (ActiveInvestment.user_id r) (toDecimal profit) ;;
   updatedInvestment <-
     activeInvestment_update (ActiveInvestment.id r)
       (ActiveInvestment.increment_earned (toDecimal profit) now) ;;
   _ <- transaction_create
          (Transaction.mk (ActiveInvestment.user_id r) PROFIT (toDecimal profit)
             (Transaction.DailyProfit (InvestmentPlan.name (plan investment))
                (ActiveInvestment.daily_percent r))) ;;
   tx_ret (updatedUser, updatedInvestment, profit))%tx.

Definition processInvestment (mail : EmailService) (now : Z)
    (investment : Investment) (prisma : Prisma) : result * Prisma :=
  if (ActiveInvestment.end_date (row investment) <? now)%Z then
    completeInvestment mail now investment prisma
  else if (daysElapsed now investment <? 1)%Z then
    (skipped "Investment too recent for profit", prisma)
  else if PrimFloat.leb (newProfit now investment) 0 then
    (skipped "No new profit to distribute", prisma)
  else
    match transaction (profit_tx now investment) prisma with
    | (Returned _, prisma') =>
        let emailSent := try_send mail (User.email (user investment)) in
        (mkResult true (Some "Profit calculated and distributed successfully")
           (Some (newProfit now investment)) None (Some emailSent) None,
         prisma')
    | (Threw e, prisma') => (failure e, prisma')
    end.

(** [processInvestment] on the row as a fresh listing returns it. *)
Definition process_fresh (mail : EmailService) (iid : string) (p : Prisma)
    (now : Z) : Prisma :=
  match read_investment (db p) iid with
  | Some investment => (processInvestment mail now investment p).2
  | None => p
  end.

(** One run after the other, at the given times. *)
Definition process_at (mail : EmailService) (iid : string) (times : list Z)
    (p : Prisma) : Prisma :=
  foldl (process_fresh mail iid) p times.
End Binary64.

(** A store with one user, one plan and one ACTIVE investment that started
    at time 0, and the investment as a listing returns it. *)
Definition account (amount percent : Q) (duration : Z) (earned balance : Q)
    (ledger : list Transaction.t) : Prisma :=
  mkPrisma
    (mkDb {[ "u1" := alice balance ]}
          {[ "p1" := InvestmentPlan.mk "Plan" percent duration ]}
          {[ "i1" := ActiveInvestment.mk "i1" "u1" "p1" amount 0 (day duration)
                       percent ACTIVE earned 0 ]}
          ledger)
    true.

Definition listed (amount percent : Q) (duration : Z) (earned balance : Q)
  : Investment :=
  mkInvestment
    (ActiveInvestment.mk "i1" "u1" "p1" amount 0 (day duration) percent ACTIVE earned 0)
    (alice balance) (InvestmentPlan.mk "Plan" percent duration).

(** ** Lemmas on the store *)

Lemma fresh_lookups d investment :
  fresh d investment ->
  activeInvestments d !! ActiveInvestment.id (row investment) = Some (row investment)
  /\ users d !! ActiveInvestment.user_id (row investment) = Some (user investment)
  /\ investmentPlans d !! ActiveInvestment.plan_id (row investment)
     = Some (plan investment).
Proof.
  unfold fresh, read_investment, include_relations.
  destruct (activeInvestments d !! _) as [r|] eqn:Hr; [|done].
  destruct (users d !! _) as [u|] eqn:Hu; [|done].
  destruct (investmentPlans d !! _) as [pl|] eqn:Hp; [|done].
  intros [= <-]. simpl in *. done.
Qed.

Lemma lookups_fresh d investment :
  activeInvestments d !! ActiveInvestment.id (row investment) = Some (row investment) ->
  users d !! ActiveInvestment.user_id (row investment) = Some (user investment) ->
  investmentPlans d !! ActiveInvestment.plan_id (row investment) = Some (plan investment) ->
  fresh d investment.
Proof.
  intros Hr Hu Hp. unfold fresh, read_investment, include_relations.
  rewrite Hr, Hu, Hp. by destruct investment.
Qed.

Lemma profit_tx_fresh now investment d :
  fresh d investment ->
  profit_tx now investment d
  = Returned (User.increment_balance (newProfit now investment) (user investment),
              ActiveInvestment.increment_earned (newProfit now investment) now
                (row investment),
              newProfit now investment,
              credited_db now investment d).
Proof.
  intros (Hr & Hu & _)%fresh_lookups.
  unfold profit_tx, tx_bind, user_update_increment, activeInvestment_update,
    transaction_create, tx_ret, credited_db. simpl.
  rewrite Hu. simpl. rewrite Hr. reflexivity.
Qed.


(** ** What the two operations do on a fresh investment *)



Lemma processInvestment_too_recent mail now investment p :
  (now <= ActiveInvestment.end_date (row investment))%Z ->
  (daysElapsed now investment < 1)%Z ->
  processInvestment mail now investment p
  = (skipped "Investment too recent for profit", p).
Proof.
  intros H1 H2. unfold processInvestment.
  rewrite (proj2 (Z.ltb_ge _ _) H1).
  by rewrite (proj2 (Z.ltb_lt _ _) H2).
Qed.


Lemma Qle_bool_false x y : (y < x)%Q -> Qle_bool x y = false.
Proof.
  intros H. destruct (Qle_bool x y) eqn:E; [|done].
  apply Qle_bool_iff in E. lra.
Qed.

Lemma processInvestment_credit mail now investment p :
  connected p = true -> fresh (db p) investment ->
  (now <= ActiveInvestment.end_date (row investment))%Z ->
  (1 <= daysElapsed now investment)%Z ->
  (0 < newProfit now investment)%Q ->
  processInvestment mail now investment p
  = (credited_result mail now investment,
     mkPrisma (credited_db now investment (db p)) true).
Proof.
  intros Hc Hf H1 H2 H3. unfold processInvestment.
  rewrite (proj2 (Z.ltb_ge _ _) H1).
  rewrite (proj2 (Z.ltb_ge _ _) H2).
  rewrite (Qle_bool_false _ _ H3).
  unfold transaction. rewrite Hc, (profit_tx_fresh now investment (db p) Hf).
  reflexivity.
Qed.

Lemma read_credited now investment d :
  fresh d investment ->
  fresh (credited_db now investment d) (credited_investment now investment).
Proof.
  intros (Hr & Hu & Hp)%fresh_lookups.
  apply lookups_fresh; unfold credited_db, credited_investment; simpl.
  - by rewrite lookup_insert_eq.
  - by rewrite lookup_insert_eq.
  - done.
Qed.


(** ** Arithmetic of the accrual *)

Lemma MS_PER_DAY_pos : (0 < MS_PER_DAY)%Z.
Proof. reflexivity. Qed.



Lemma remainingProfit_nonneg investment : (0 <= remainingProfit investment)%Q.
Proof. unfold remainingProfit. apply Q.le_max_l. Qed.

Lemma positive_false x : positive x = false <-> (x <= 0)%Q.
Proof.
  unfold positive. rewrite negb_false_iff. apply Qle_bool_iff.
Qed.

(** ** The run coordinator *)

Lemma record_result_counts investment result results :
  Results.totalInvestments (record_result investment result results)
  = Results.totalInvestments results
  /\ Results.processedInvestments (record_result investment result results)
     = (if ProcessResult.success result then 1 else 0)
       + Results.processedInvestments results
  /\ length (Results.errors (record_result investment result results))
     = (if ProcessResult.success result then 0 else 1)
       + length (Results.errors results).
Proof.
  unfold record_result. destruct (ProcessResult.success result); simpl.
  - done.
  - rewrite length_app. simpl. repeat split; lia.
Qed.

Lemma succeeded_cons r l :
  succeeded (r :: l) = (if ProcessResult.success r then 1 else 0) + succeeded l.
Proof.
  unfold succeeded. rewrite filter_cons.
  destruct (ProcessResult.success r); by case_decide.
Qed.

Lemma failed_cons r l :
  failed (r :: l) = (if ProcessResult.success r then 0 else 1) + failed l.
Proof.
  unfold failed. rewrite filter_cons.
  destruct (ProcessResult.success r); by case_decide.
Qed.

Lemma succeeded_failed_length l : succeeded l + failed l = length l.
Proof.
  induction l as [|r l IH]; [done|].
  rewrite succeeded_cons, failed_cons. simpl.
  destruct (ProcessResult.success r); lia.
Qed.

Lemma outcomes_length mail now investments p :
  length (outcomes mail now investments p) = length investments.
Proof.
  revert p. induction investments as [|i l IH]; intros p; simpl; [done|].
  destruct (processInvestment mail now i p) as [r p']. simpl. by rewrite IH.
Qed.

Lemma process_all_counts mail now investments results p :
  let results' := (process_all mail now investments results p).1 in
  Results.totalInvestments results' = Results.totalInvestments results
  /\ Results.processedInvestments results'
     = Results.processedInvestments results
       + succeeded (outcomes mail now investments p)
  /\ length (Results.errors results')
     = length (Results.errors results)
       + failed (outcomes mail now investments p).
Proof.
  revert results p.
  induction investments as [|i l IH]; intros results p; simpl.
  { unfold succeeded, failed. simpl. repeat split; lia. }
  destruct (processInvestment mail now i p) as [r p'] eqn:Hr.
  destruct (IH (record_result i r results) p') as (Ht & Hp & He).
  destruct (record_result_counts i r results) as (Ht' & Hp' & He').
  rewrite succeeded_cons, failed_cons.
  repeat split; [congruence | lia | lia].
Qed.

(** A run over one investment that started less than a day ago: it counts
    as processed although nothing is credited. *)
Lemma too_recent_counts_as_processed :
  let '(result, _, p') := execute mail_ok (day 0 + 1000) new_job (store 0 ACTIVE 0) in
  (Results.processedInvestments <$> RunResult.results result) = Some 1%nat
  /\ (Results.totalProfitDistributed <$> RunResult.results result) = Some 0%Q
  /\ p' = store 0 ACTIVE 0.
Proof. vm_compute. done. Qed.

(** C10. When [execute] lists N active investments, the summary has
    [totalInvestments = N = processedInvestments + errors.length];
    [processedInvestments] is the number of investments whose processing
    reported success and [errors.length] the number that did not, so an
    investment that was only skipped is counted as processed: there is a run
    with one processed investment and nothing credited. *)
Theorem run_summary_accounting mail now job p investments :
  isRunning job = false ->
  findMany_active p = Returned investments ->
  (exists results,
     RunResult.results (execute mail now job p).1.1 = Some results
     /\ Results.totalInvestments results = length investments
     /\ Results.totalInvestments results
        = Results.processedInvestments results + length (Results.errors results)
     /\ Results.processedInvestments results
        = succeeded (outcomes mail now investments p)
     /\ length (Results.errors results)
        = failed (outcomes mail now investments p))
  /\ (exists p0 now0 results0,
        RunResult.results (execute mail_ok now0 new_job p0).1.1 = Some results0
        /\ Results.processedInvestments results0 = 1%nat
        /\ (Results.totalProfitDistributed results0 == 0)%Q
        /\ (execute mail_ok now0 new_job p0).2 = p0).
Proof.
  intros Hrun Hlist. split.
  - unfold execute. rewrite Hrun, Hlist.
    pose proof (process_all_counts mail now investments
                  (with_total (length investments) initial_results) p) as H.
    destruct (process_all mail now investments _ p) as [results' p'].
    simpl in H. destruct H as (Ht & Hp & He).
    exists results'. simpl.
    pose proof (succeeded_failed_length (outcomes mail now investments p)) as Hs.
    rewrite outcomes_length in Hs.
    repeat split; lia.
  - exists (store 0 ACTIVE 0), (day 0 + 1000)%Z.
    pose proof too_recent_counts_as_processed as H.
    destruct (execute mail_ok (day 0 + 1000) new_job (store 0 ACTIVE 0))
      as [[result job'] p'].
    destruct H as (H1 & H2 & H3). simpl.
    destruct (RunResult.results result) as [r0|]; [|done].
    exists r0. simpl in *. simplify_eq. rewrite H2. done.
Qed.

Lemma run_summary_accounting_witness :
  exists results,
    RunResult.results (execute mail_ok (day 5) new_job (store 0 ACTIVE 0)).1.1
    = Some results
    /\ Results.totalInvestments results = 1%nat
    /\ Results.totalInvestments results
       = Results.processedInvestments results + length (Results.errors results).
Proof.
  destruct (run_summary_accounting mail_ok (day 5) new_job (store 0 ACTIVE 0)
              [snapshot 0 ACTIVE 0]) as [(results & H1 & H2 & H3 & _) _].
  - reflexivity.
  - vm_compute. reflexivity.
  - exists results. auto.
Defined.

Lemma execute_admitted_failure mail now job p :
  isRunning job = false ->
  RunResult.success (execute mail now job p).1.1 = false ->
  exists e,
    findMany_active p = Threw e
    /\ execute mail now job p
       = (RunResult.mk false "Daily profit calculation failed" (Some e)
            (Some initial_results),
          mkJob (jobName job) false, p).
Proof.
  intros Hrun. unfold execute. rewrite Hrun.
  destruct (findMany_active p) as [l|e].
  - destruct (process_all _ _ _ _ _) as [r p']. simpl. done.
  - intros _. by exists e.
Qed.

(** C7. Called while a run is in progress, [execute] returns at once: the
    store and the job object are untouched, and the value returned carries
    neither an [error] nor a [results] field, whereas every failed run
    carries both; so the two are different values. *)
Theorem reentrant_execute_is_noop mail now job p :
  isRunning job = true ->
  execute mail now job p = (already_running, job, p)
  /\ RunResult.error already_running = None
  /\ RunResult.results already_running = None
  /\ (forall mail' now' job' p',
        isRunning job' = false ->
        RunResult.success (execute mail' now' job' p').1.1 = false ->
        is_Some (RunResult.error (execute mail' now' job' p').1.1)
        /\ is_Some (RunResult.results (execute mail' now' job' p').1.1)
        /\ (execute mail' now' job' p').1.1 <> already_running).
Proof.
  intros Hrun. split; [|split; [done|split; [done|]]].
  - unfold execute. by rewrite Hrun.
  - intros mail' now' job' p' Hidle Hfail.
    destruct (execute_admitted_failure _ _ _ _ Hidle Hfail) as (e & _ & ->).
    simpl. repeat split; by eauto.
Qed.

Lemma reentrant_execute_is_noop_witness :
  execute mail_ok (day 5) (mkJob "DailyProfitCalculation" true) (store 0 ACTIVE 0)
  = (already_running, mkJob "DailyProfitCalculation" true, store 0 ACTIVE 0).
Proof.
  apply (reentrant_execute_is_noop mail_ok (day 5)
           (mkJob "DailyProfitCalculation" true) (store 0 ACTIVE 0)).
  reflexivity.
Defined.

(** C8. A run that got past the guard leaves [isRunning] false, whether the
    listing of the active investments succeeded or threw; when it threw, the
    run stops there: the store is untouched and the result carries the
    error and the initial summary, with zero investments processed. *)
Theorem execute_releases_flag mail now job p :
  isRunning job = false ->
  isRunning (execute mail now job p).1.2 = false
  /\ (forall e,
        findMany_active p = Threw e ->
        execute mail now job p
        = (RunResult.mk false "Daily profit calculation failed" (Some e)
             (Some initial_results),
           mkJob (jobName job) false, p)
        /\ Results.totalInvestments initial_results = 0%nat
        /\ Results.processedInvestments initial_results = 0%nat
        /\ Results.errors initial_results = []).
Proof.
  intros Hrun. unfold execute. rewrite Hrun. split.
  - destruct (findMany_active p) as [l|e]; [|done].
    by destruct (process_all _ _ _ _ _) as [r p'].
  - intros e ->. done.
Qed.

Lemma execute_releases_flag_witness :
  isRunning (execute mail_ok (day 5) new_job (unreachable (store 0 ACTIVE 0))).1.2
  = false
  /\ execute mail_ok (day 5) new_job (unreachable (store 0 ACTIVE 0))
     = (RunResult.mk false "Daily profit calculation failed"
          (Some unreachable_msg) (Some initial_results),
        new_job, unreachable (store 0 ACTIVE 0)).
Proof.
  destruct (execute_releases_flag mail_ok (day 5) new_job
              (unreachable (store 0 ACTIVE 0))) as [H1 H2].
  - reflexivity.
  - split; [exact H1|]. apply (H2 unreachable_msg). reflexivity.
Defined.

Lemma ledger_sum_app l1 l2 :
  (ledger_sum (l1 ++ l2) == ledger_sum l1 + ledger_sum l2)%Q.
Proof.
  induction l1 as [|t l1 IH].
  - change (ledger_sum l2 == 0 + ledger_sum l2)%Q. lra.
  - change (Transaction.amount_usd t + ledger_sum (l1 ++ l2)
            == Transaction.amount_usd t + ledger_sum l1 + ledger_sum l2)%Q.
    lra.
Qed.

(** ** Completion *)




(** ** Negative owed amounts *)




(** ** What [processInvestment] reads *)

Lemma profit_tx_returns now investment d :
  is_Some (users d !! ActiveInvestment.user_id (row investment)) ->
  is_Some (activeInvestments d !! ActiveInvestment.id (row investment)) ->
  exists x d', profit_tx now investment d = Returned (x, d').
Proof.
  intros [u Hu] [r Hr].
  unfold profit_tx, tx_bind, user_update_increment, activeInvestment_update,
    transaction_create, tx_ret. simpl.
  rewrite Hu. simpl. rewrite Hr. by eexists _, _.
Qed.

Lemma complete_tx_returns now investment d :
  is_Some (users d !! ActiveInvestment.user_id (row investment)) ->
  is_Some (activeInvestments d !! ActiveInvestment.id (row investment)) ->
  exists x d', complete_tx now investment d = Returned (x, d').
Proof.
  intros [u Hu] [r Hr].
  unfold complete_tx, tx_bind, user_update_increment, activeInvestment_update,
    transaction_create, tx_ret. simpl.
  destruct (positive (remainingProfit investment)); simpl.
  - rewrite Hu. simpl. rewrite Hr. by eexists _, _.
  - rewrite Hr. by eexists _, _.
Qed.

Lemma processInvestment_result mail now investment p :
  connected p = true ->
  is_Some (users (db p) !! ActiveInvestment.user_id (row investment)) ->
  is_Some (activeInvestments (db p) !! ActiveInvestment.id (row investment)) ->
  (processInvestment mail now investment p).1
  = result_of_snapshot mail now investment.
Proof.
  intros Hc Hu Hr.
  unfold processInvestment, result_of_snapshot, completeInvestment, transaction.
  rewrite Hc.
  destruct (complete_tx_returns now investment (db p) Hu Hr) as (x & d' & ->).
  destruct (profit_tx_returns now investment (db p) Hu Hr) as (y & d'' & ->).
  by repeat case_match.
Qed.

Lemma findMany_active_listed p investments investment :
  findMany_active p = Returned investments ->
  investment ∈ investments ->
  ActiveInvestment.status (row investment) = ACTIVE
  /\ exists k,
       activeInvestments (db p) !! k = Some (row investment)
       /\ include_relations (db p) (row investment) = Some investment.
Proof.
  unfold findMany_active. destruct (connected p); [|done].
  intros [= <-] ([k r] & Hin & Hf)%list_elem_of_omap.
  apply elem_of_map_to_list in Hin. simpl in Hf.
  destruct (ActiveInvestment.status r) eqn:Hs; simpl in Hf; [|done].
  assert (row investment = r) as ->.
  { unfold include_relations in Hf. repeat case_match; by simplify_eq. }
  eauto.
Qed.

(** The row was completed by another path (total_earned 45.00, balance
    45.00) after the coordinator took its snapshot (ACTIVE, 40.00).
    [processInvestment] completes it again from the snapshot and credits
    5.00 a second time.  Handed the COMPLETED row itself, it still answers
    'Investment completed successfully' and writes to the ledger. *)
Lemma stale_snapshot_counterexample :
  status_of (store 45 COMPLETED 45) "i1" = Some COMPLETED
  /\ (processInvestment mail_ok (day 31) (snapshot 40 ACTIVE 40)
        (store 45 COMPLETED 45)).1
     = completed_result mail_ok (snapshot 40 ACTIVE 40)
  /\ balance_of (store 45 COMPLETED 45) "u1" = Some 45%Q
  /\ Qred <$> balance_of
       (processInvestment mail_ok (day 31) (snapshot 40 ACTIVE 40)
          (store 45 COMPLETED 45)).2 "u1" = Some 50%Q
  /\ ProcessResult.message
       (processInvestment mail_ok (day 31) (snapshot 45 COMPLETED 45)
          (store 45 COMPLETED 45)).1
     = Some "Investment completed successfully"
  /\ length (transactions (db
       (processInvestment mail_ok (day 31) (snapshot 45 COMPLETED 45)
          (store 45 COMPLETED 45)).2)) = 1%nat.
Proof. vm_compute. repeat split. Qed.

(** C1 (amended). [processInvestment] does not read the row again and does
    not look at its status: on a reachable store that still holds the row
    and the user, its result is computed from the snapshot it was handed,
    whatever the store holds.  What keeps a COMPLETED row out of a run is the
    listing of [execute], which returns only rows that are ACTIVE in the
    store at that moment. *)
Theorem processInvestment_uses_snapshot mail now investment p1 p2 :
  connected p1 = true ->
  connected p2 = true ->
  is_Some (users (db p1) !! ActiveInvestment.user_id (row investment)) ->
  is_Some (activeInvestments (db p1) !! ActiveInvestment.id (row investment)) ->
  is_Some (users (db p2) !! ActiveInvestment.user_id (row investment)) ->
  is_Some (activeInvestments (db p2) !! ActiveInvestment.id (row investment)) ->
  (processInvestment mail now investment p1).1
  = (processInvestment mail now investment p2).1
  /\ (processInvestment mail now investment p1).1
     = result_of_snapshot mail now investment
  /\ (forall investments listed,
        findMany_active p1 = Returned investments ->
        listed ∈ investments ->
        ActiveInvestment.status (row listed) = ACTIVE
        /\ exists k,
             activeInvestments (db p1) !! k = Some (row listed)
             /\ include_relations (db p1) (row listed) = Some listed).
Proof.
  intros Hc1 Hc2 Hu1 Hr1 Hu2 Hr2.
  rewrite !processInvestment_result by done.
  split; [done|]. split; [done|].
  intros investments listed. apply findMany_active_listed.
Qed.

Lemma processInvestment_uses_snapshot_witness :
  (processInvestment mail_ok (day 31) (snapshot 40 ACTIVE 40)
     (store 40 ACTIVE 40)).1
  = (processInvestment mail_ok (day 31) (snapshot 40 ACTIVE 40)
       (store 45 COMPLETED 45)).1.
Proof.
  apply (processInvestment_uses_snapshot mail_ok (day 31) (snapshot 40 ACTIVE 40)
           (store 40 ACTIVE 40) (store 45 COMPLETED 45));
    first [reflexivity | vm_compute; by eexists].
Defined.

(** ** Scenario 1 *)

Lemma scenario_one_binary64 :
  newProfit_binary64 100 1.5 5 0 = 7.5%float
  /\ PrimFloat.add 0 (newProfit_binary64 100 1.5 5 0) = 7.5%float.
Proof. split; reflexivity. Qed.

Lemma five_days_in_not_ended now investment :
  ActiveInvestment.end_date (row investment)
  = (ActiveInvestment.start_date (row investment) + 30 * MS_PER_DAY)%Z ->
  daysElapsed now investment = 5%Z ->
  (now <= ActiveInvestment.end_date (row investment))%Z.
Proof.
  intros -> Hd. unfold daysElapsed in Hd.
  pose proof MS_PER_DAY_pos as Hpos.
  pose proof (Z.div_mod (now - ActiveInvestment.start_date (row investment))
                MS_PER_DAY ltac:(lia)) as Hdm.
  pose proof (Z.mod_pos_bound (now - ActiveInvestment.start_date (row investment))
                MS_PER_DAY Hpos) as Hb.
  rewrite Hd in Hdm. lia.
Qed.

(** C9. Scenario 1: principal 100, rate 1.5 % a day, 30 days, five whole days
    elapsed, total_earned 0.  One application of [processInvestment] credits
    100 * 1.5 * 5 / 100 - 0 = 7.50: that is the profit reported and the
    amount of the PROFIT entry, total_earned becomes 7.50, the balance grows
    by 7.50 (from 0.00 to exactly 7.50) and the status stays ACTIVE.  On
    binary64 numbers the same expression evaluates to exactly 7.5. *)
Theorem scenario_one_credit mail now investment p :
  connected p = true ->
  fresh (db p) investment ->
  ActiveInvestment.amount_usd (row investment) = 100%Q ->
  ActiveInvestment.daily_percent (row investment) = (3 # 2)%Q ->
  ActiveInvestment.end_date (row investment)
  = (ActiveInvestment.start_date (row investment) + 30 * MS_PER_DAY)%Z ->
  daysElapsed now investment = 5%Z ->
  ActiveInvestment.total_earned (row investment) = 0%Q ->
  ActiveInvestment.status (row investment) = ACTIVE ->
  exists investment' owed entry,
    let result := (processInvestment mail now investment p).1 in
    let p' := (processInvestment mail now investment p).2 in
    ProcessResult.success result = true
    /\ ProcessResult.profitAmount result = Some owed
    /\ (owed == 15 # 2)%Q
    /\ read_investment (db p') (ActiveInvestment.id (row investment))
       = Some investment'
    /\ (ActiveInvestment.total_earned (row investment') == 15 # 2)%Q
    /\ (User.balance_usd (user investment')
        == User.balance_usd (user investment) + (15 # 2))%Q
    /\ ((User.balance_usd (user investment) == 0)%Q ->
        (User.balance_usd (user investment') == 15 # 2)%Q)
    /\ ActiveInvestment.status (row investment') = ACTIVE
    /\ transactions (db p') = (transactions (db p) ++ [entry])%list
    /\ Transaction.type entry = PROFIT
    /\ (Transaction.amount_usd entry == 15 # 2)%Q
    /\ newProfit_binary64 100 1.5 5 0 = 7.5%float
    /\ PrimFloat.add 0 (newProfit_binary64 100 1.5 5 0) = 7.5%float.
Proof.
  intros Hc Hf Ha Hr He Hd Ht Hs.
  assert (Howed : (newProfit now investment == 15 # 2)%Q).
  { unfold newProfit, expectedTotalProfit, profit_for_days.
    rewrite Ha, Hr, Hd, Ht. reflexivity. }
  assert (Hpos : (0 < newProfit now investment)%Q) by lra.
  pose proof (five_days_in_not_ended now investment He Hd) as Hend.
  rewrite (processInvestment_credit mail now investment p Hc Hf Hend
             ltac:(lia) Hpos).
  eexists (credited_investment now investment), (newProfit now investment), _.
  cbv zeta. simpl fst. simpl snd.
  split; [reflexivity|]. split; [reflexivity|]. split; [exact Howed|].
  split; [exact (read_credited now investment (db p) Hf)|].
  split; [unfold credited_investment; simpl; rewrite Ht; lra|].
  split; [unfold credited_investment; simpl; lra|].
  split; [unfold credited_investment; simpl; lra|].
  split; [exact Hs|].
  split; [reflexivity|]. split; [reflexivity|]. split; [exact Howed|].
  exact scenario_one_binary64.
Qed.

Lemma scenario_one_credit_witness :
  exists investment',
    read_investment
      (db (processInvestment mail_ok (day 5) (snapshot 0 ACTIVE 0)
             (store 0 ACTIVE 0)).2) "i1" = Some investment'
    /\ (ActiveInvestment.total_earned (row investment') == 15 # 2)%Q
    /\ (User.balance_usd (user investment') == 15 # 2)%Q
    /\ ActiveInvestment.status (row investment') = ACTIVE.
Proof.
  destruct (scenario_one_credit mail_ok (day 5) (snapshot 0 ACTIVE 0)
              (store 0 ACTIVE 0))
    as (i' & owed & entry & _ & _ & _ & H1 & H2 & _ & H3 & H4 & _);
    try reflexivity.
  exists i'. split; [exact H1|]. split; [exact H2|]. split; [|exact H4].
  apply H3. reflexivity.
Defined.

(** * Further properties of the job *)

(** ** What one application does to the store *)

Lemma profit_tx_effect now investment d x d' :
  profit_tx now investment d = Returned (x, d') ->
  exists u r,
    users d !! ActiveInvestment.user_id (row investment) = Some u
    /\ activeInvestments d !! ActiveInvestment.id (row investment) = Some r
    /\ d' = mkDb (<[ActiveInvestment.user_id (row investment) :=
                     User.increment_balance (newProfit now investment) u]> (users d))
                 (investmentPlans d)
                 (<[ActiveInvestment.id (row investment) :=
                     ActiveInvestment.increment_earned (newProfit now investment) now r]>
                    (activeInvestments d))
                 (transactions d ++
                  [Transaction.mk (ActiveInvestment.user_id (row investment)) PROFIT
                     (newProfit now investment)
                     (Transaction.DailyProfit (InvestmentPlan.name (plan investment))
                        (ActiveInvestment.daily_percent (row investment)))]).
Proof.
  unfold profit_tx, tx_bind, user_update_increment, activeInvestment_update,
    transaction_create, tx_ret. simpl.
  destruct (users d !! _) as [u|] eqn:Hu; [simpl|done].
  destruct (activeInvestments d !! _) as [r|] eqn:Hr; [simpl|done].
  intros [= <- <-]. by exists u, r.
Qed.

Lemma complete_tx_effect now investment d x d' :
  complete_tx now investment d = Returned (x, d') ->
  exists r users' written,
    activeInvestments d !! ActiveInvestment.id (row investment) = Some r
    /\ ((positive (remainingProfit investment) = false
         /\ users' = users d /\ written = [])
        \/ (positive (remainingProfit investment) = true
            /\ exists u,
                 users d !! ActiveInvestment.user_id (row investment) = Some u
                 /\ users' = <[ActiveInvestment.user_id (row investment) :=
                                User.increment_balance (remainingProfit investment) u]>
                               (users d)
                 /\ written
                    = [Transaction.mk (ActiveInvestment.user_id (row investment)) PROFIT
                         (remainingProfit investment)
                         (Transaction.FinalProfit
                            (InvestmentPlan.name (plan investment)))]))
    /\ d' = mkDb users' (investmentPlans d)
              (<[ActiveInvestment.id (row investment) :=
                  ActiveInvestment.complete (totalExpectedProfit investment) now r]>
                 (activeInvestments d))
              ((transactions d ++ written) ++
               [Transaction.mk (ActiveInvestment.user_id (row investment)) INVESTMENT 0
                  (Transaction.InvestmentCompleted
                     (InvestmentPlan.name (plan investment))
                     (totalExpectedProfit investment))]).
Proof.
  unfold complete_tx, tx_bind, user_update_increment, activeInvestment_update,
    transaction_create, tx_ret. simpl.
  destruct (positive (remainingProfit investment)) eqn:Hpos; simpl.
  - destruct (users d !! _) as [u|] eqn:Hu; [simpl|done].
    destruct (activeInvestments d !! _) as [r|] eqn:Hr; [simpl|done].
    intros [= <- <-]. eexists r, _, _. split; [done|]. split; [|done].
    right. split; [done|]. by exists u.
  - destruct (activeInvestments d !! _) as [r|] eqn:Hr; [simpl|done].
    intros [= <- <-]. eexists r, _, _. split; [done|]. split.
    + left. done.
    + by rewrite app_nil_r.
Qed.

Lemma completeInvestment_effect mail now investment p :
  ((completeInvestment mail now investment p).2 = p
   /\ ProcessResult.success (completeInvestment mail now investment p).1 = false)
  \/ (ProcessResult.success (completeInvestment mail now investment p).1 = true
      /\ ProcessResult.profitAmount (completeInvestment mail now investment p).1
         = Some (remainingProfit investment)
      /\ committed investment (remainingProfit investment) p
           (completeInvestment mail now investment p).2).
Proof.
  unfold completeInvestment, transaction.
  destruct (connected p) eqn:Hc; [|by left].
  destruct (complete_tx now investment (db p)) as [[x d']|e] eqn:Htx; [|by left].
  right. simpl. split; [done|]. split; [done|].
  destruct (complete_tx_effect _ _ _ _ _ Htx) as (r & users' & w & Hr & Hcase & ->).
  pose proof (remainingProfit_nonneg investment) as Hnn.
  rewrite <- app_assoc.
  destruct Hcase as [(Hpos & -> & ->) | (Hpos & u & Hu & -> & ->)].
  - eexists _, _, _. split; [by eexists|].
    split; [by left|]. split; [done|]. split; [done|].
    apply positive_false in Hpos. split.
    + unfold ledger_sum. simpl. lra.
    + repeat constructor. simpl. lra.
  - eexists _, _, _. split; [by eexists|].
    split; [right; by exists u|]. split; [done|]. split; [done|]. split.
    + unfold ledger_sum. simpl. lra.
    + repeat constructor; simpl; lra.
Qed.

Lemma processInvestment_effect mail now investment p :
  ((processInvestment mail now investment p).2 = p
   /\ (ProcessResult.success (processInvestment mail now investment p).1 = false
       \/ ProcessResult.profitAmount (processInvestment mail now investment p).1
          = None))
  \/ (ProcessResult.success (processInvestment mail now investment p).1 = true
      /\ exists delta,
           ProcessResult.profitAmount (processInvestment mail now investment p).1
           = Some delta
           /\ (0 <= delta)%Q
           /\ committed investment delta p
                (processInvestment mail now investment p).2).
Proof.
  unfold processInvestment.
  destruct (_ <? now)%Z.
  { destruct (completeInvestment_effect mail now investment p)
      as [[H1 H2] | (H1 & H2 & H3)].
    - left. auto.
    - right. split; [done|]. exists (remainingProfit investment).
      split; [done|]. split; [apply remainingProfit_nonneg | done]. }
  destruct (_ <? 1)%Z; [left; simpl; auto|].
  destruct (Qle_bool (newProfit now investment) 0) eqn:Hle; [left; simpl; auto|].
  assert (Hpos : (0 < newProfit now investment)%Q).
  { destruct (Qlt_le_dec 0 (newProfit now investment)) as [|Hn]; [done|].
    apply Qle_bool_iff in Hn. congruence. }
  unfold transaction.
  destruct (connected p) eqn:Hc; [|left; simpl; auto].
  destruct (profit_tx now investment (db p)) as [[x d']|e] eqn:Htx;
    [|left; simpl; auto].
  right. simpl. split; [done|]. exists (newProfit now investment).
  split; [done|]. split; [lra|].
  destruct (profit_tx_effect _ _ _ _ _ Htx) as (u & r & Hu & Hr & ->).
  eexists _, _, _. split; [by eexists|].
  split; [right; by exists u|]. split; [done|]. split; [done|]. split.
  - unfold ledger_sum. simpl. lra.
  - repeat constructor. simpl. lra.
Qed.

(** ** A run only adds *)

Lemma only_adds_refl p : only_adds p p.
Proof.
  repeat split; try done.
  - intros uid. destruct (users (db p) !! uid); [|done].
    repeat split; try done. apply Qle_refl.
  - exists []. by rewrite app_nil_r.
Qed.

Lemma only_adds_trans p1 p2 p3 :
  only_adds p1 p2 -> only_adds p2 p3 -> only_adds p1 p3.
Proof.
  intros (Hc1 & Hp1 & Hu1 & Hi1 & w1 & Hw1 & Hn1)
         (Hc2 & Hp2 & Hu2 & Hi2 & w2 & Hw2 & Hn2).
  split; [congruence|]. split; [congruence|]. split; [|split].
  - intros uid. specialize (Hu1 uid). specialize (Hu2 uid).
    destruct (users (db p1) !! uid) as [u1|],
             (users (db p2) !! uid) as [u2|],
             (users (db p3) !! uid) as [u3|]; try done.
    destruct Hu1 as (? & ? & ? & ?), Hu2 as (? & ? & ? & ?).
    repeat split; try congruence. lra.
  - intros iid. by rewrite Hi2, Hi1.
  - exists (w1 ++ w2)%list. split.
    + by rewrite Hw2, Hw1, app_assoc.
    + by apply Forall_app.
Qed.

Lemma committed_only_adds investment delta p p' :
  (0 <= delta)%Q -> committed investment delta p p' -> only_adds p p'.
Proof.
  intros Hd (stored' & users' & w & Hrow & Husers & -> & Hc & Hsum & Hnn).
  split; [done|]. split; [done|]. split; [|split].
  - intros uid. simpl.
    destruct Husers as [-> | (u & Hu & ->)].
    + destruct (users (db p) !! uid); [|done].
      repeat split; try done. apply Qle_refl.
    + destruct (decide (ActiveInvestment.user_id (row investment) = uid)) as [<-|Hne].
      * rewrite Hu, lookup_insert_eq. simpl. repeat split; try done. lra.
      * rewrite lookup_insert_ne by done.
        destruct (users (db p) !! uid); [|done].
        repeat split; try done. apply Qle_refl.
  - intros iid. simpl.
    destruct (decide (ActiveInvestment.id (row investment) = iid)) as [<-|Hne].
    + rewrite lookup_insert_eq. split; [done|by eexists].
    + by rewrite lookup_insert_ne.
  - by exists w.
Qed.

Lemma processInvestment_only_adds mail now investment p :
  only_adds p (processInvestment mail now investment p).2.
Proof.
  destruct (processInvestment_effect mail now investment p)
    as [[-> _] | (_ & delta & _ & Hd & Hcom)].
  - apply only_adds_refl.
  - by eapply committed_only_adds.
Qed.

Lemma process_all_only_adds mail now investments results p :
  only_adds p (process_all mail now investments results p).2.
Proof.
  revert results p.
  induction investments as [|i l IH]; intros results p; simpl.
  - apply only_adds_refl.
  - pose proof (processInvestment_only_adds mail now i p) as H.
    destruct (processInvestment mail now i p) as [r p']. simpl in H.
    eapply only_adds_trans; [exact H|apply IH].
Qed.

Lemma execute_only_adds mail now job p :
  only_adds p (execute mail now job p).2.
Proof.
  unfold execute. destruct (isRunning job); [apply only_adds_refl|].
  destruct (findMany_active p) as [l|e]; [|apply only_adds_refl].
  pose proof (process_all_only_adds mail now l
                (with_total (length l) initial_results) p) as H.
  by destruct (process_all mail now l _ p) as [r p'].
Qed.

(** X1. Accrual is additive: a run of [execute] never lowers a balance and
    never creates, deletes or renames a user. *)
Theorem execute_never_lowers_balance mail now job p uid :
  match users (db p) !! uid, users (db (execute mail now job p).2) !! uid with
  | Some u, Some u' =>
      User.id u' = User.id u /\ User.name u' = User.name u
      /\ User.email u' = User.email u
      /\ (User.balance_usd u <= User.balance_usd u')%Q
  | None, None => True
  | _, _ => False
  end.
Proof.
  destruct (execute_only_adds mail now job p) as (_ & _ & Hu & _).
  apply Hu.
Qed.

(** X2. The ledger is append-only: after a run of [execute] the old entries
    are still there, in order, followed by the new ones, none of which has a
    negative amount; the plans are untouched and the investment table holds
    the same ids. *)
Theorem execute_appends_to_ledger mail now job p :
  (exists written,
     transactions (db (execute mail now job p).2)
     = (transactions (db p) ++ written)%list
     /\ Forall (fun t => (0 <= Transaction.amount_usd t)%Q) written)
  /\ investmentPlans (db (execute mail now job p).2) = investmentPlans (db p)
  /\ (forall iid,
        is_Some (activeInvestments (db (execute mail now job p).2) !! iid)
        <-> is_Some (activeInvestments (db p) !! iid)).
Proof.
  destruct (execute_only_adds mail now job p) as (_ & Hp & _ & Hi & Hw).
  done.
Qed.

(** ** Failures *)

(** X3. A per-investment failure is atomic: when [processInvestment] or
    [completeInvestment] reports failure the store is exactly as before, also
    when the failing statement came after a balance update in the same
    transaction.  This holds whichever way the amounts are computed. *)
Theorem failed_investment_leaves_store mail now investment p :
  (ProcessResult.success (processInvestment mail now investment p).1 = false ->
   (processInvestment mail now investment p).2 = p)
  /\ (ProcessResult.success (completeInvestment mail now investment p).1 = false ->
      (completeInvestment mail now investment p).2 = p)
  /\ (Binary64.success (Binary64.processInvestment mail now investment p).1 = false ->
      (Binary64.processInvestment mail now investment p).2 = p)
  /\ (Binary64.success (Binary64.completeInvestment mail now investment p).1 = false ->
      (Binary64.completeInvestment mail now investment p).2 = p).
Proof.
  assert (Hcomplete :
    Binary64.success (Binary64.completeInvestment mail now investment p).1 = false ->
    (Binary64.completeInvestment mail now investment p).2 = p).
  { unfold Binary64.completeInvestment, transaction.
    destruct (connected p); [|done].
    by destruct (Binary64.complete_tx now investment (db p)) as [[x d']|e]. }
  split; [|split; [|split]].
  - intros Hfail.
    destruct (processInvestment_effect mail now investment p)
      as [[H _] | (H & _)]; [done|congruence].
  - intros Hfail.
    destruct (completeInvestment_effect mail now investment p)
      as [[H _] | (H & _)]; [done|congruence].
  - unfold Binary64.processInvestment.
    destruct (_ <? now)%Z; [exact Hcomplete|].
    destruct (_ <? 1)%Z; [done|].
    destruct (PrimFloat.leb _ _); [done|].
    unfold transaction. destruct (connected p); [|done].
    by destruct (Binary64.profit_tx now investment (db p)) as [[x d']|e].
  - exact Hcomplete.
Qed.

(** The investment row is gone: the completion credits the balance, fails on
    the row update, and the credit is rolled back. *)
Lemma failed_investment_leaves_store_witness :
  (completeInvestment mail_ok (day 31) (snapshot 40 ACTIVE 40)
     (store_without_row 40)).2 = store_without_row 40
  /\ (processInvestment mail_ok (day 5) (snapshot 0 ACTIVE 0)
        (store_without_row 0)).2 = store_without_row 0
  /\ (Binary64.completeInvestment mail_ok (day 31) (snapshot 40 ACTIVE 40)
        (store_without_row 40)).2 = store_without_row 40
  /\ (Binary64.processInvestment mail_ok (day 5) (snapshot 0 ACTIVE 0)
        (unreachable (store 0 ACTIVE 0))).2 = unreachable (store 0 ACTIVE 0).
Proof.
  split; [|split; [|split]].
  - apply (failed_investment_leaves_store mail_ok (day 31) (snapshot 40 ACTIVE 40)
             (store_without_row 40)). reflexivity.
  - apply (failed_investment_leaves_store mail_ok (day 5) (snapshot 0 ACTIVE 0)
             (store_without_row 0)). reflexivity.
  - apply (failed_investment_leaves_store mail_ok (day 31) (snapshot 40 ACTIVE 40)
             (store_without_row 40)). by vm_compute.
  - apply (failed_investment_leaves_store mail_ok (day 5) (snapshot 0 ACTIVE 0)
             (unreachable (store 0 ACTIVE 0))). by vm_compute.
Defined.

(** ** Notifications *)

Lemma processInvestment_mail mail mail' now investment p :
  (processInvestment mail now investment p).2
  = (processInvestment mail' now investment p).2
  /\ forget_email (processInvestment mail now investment p).1
     = forget_email (processInvestment mail' now investment p).1.
Proof.
  unfold processInvestment, completeInvestment.
  destruct (_ <? now)%Z.
  { by destruct (transaction (complete_tx now investment) p) as [[x|e] p']. }
  destruct (_ <? 1)%Z; [done|].
  destruct (Qle_bool _ 0); [done|].
  by destruct (transaction (profit_tx now investment) p) as [[x|e] p'].
Qed.

Lemma record_result_forget investment r r' results results' :
  forget_email r = forget_email r' ->
  forget_emails results = forget_emails results' ->
  forget_emails (record_result investment r results)
  = forget_emails (record_result investment r' results').
Proof.
  unfold forget_email, forget_emails, record_result.
  intros [= Hs Hm Hp Hc He] [= Ht Hpr Hco Htp Her].
  rewrite Hs, Hp, Hc, He, Ht, Hpr, Hco, Htp, Her.
  by destruct (ProcessResult.success r').
Qed.

Lemma process_all_mail mail mail' now investments results results' p :
  forget_emails results = forget_emails results' ->
  (process_all mail now investments results p).2
  = (process_all mail' now investments results' p).2
  /\ forget_emails (process_all mail now investments results p).1
     = forget_emails (process_all mail' now investments results' p).1.
Proof.
  revert results results' p.
  induction investments as [|i l IH]; intros results results' p Hres; simpl.
  - done.
  - destruct (processInvestment_mail mail mail' now i p) as [Hp Hr].
    destruct (processInvestment mail now i p) as [r p1].
    destruct (processInvestment mail' now i p) as [r' p2].
    simpl in Hp, Hr. subst p2.
    apply IH. by apply record_result_forget.
Qed.

(** X4. Whether the e-mails go out changes nothing but the [emailSent] and
    [emailsSent] fields: for any two mail services, [execute] leaves the same
    store and the same job object, and returns the same result up to the
    e-mail counter. *)
Theorem notifications_do_not_touch_the_store mail mail' now job p :
  (execute mail now job p).2 = (execute mail' now job p).2
  /\ (execute mail now job p).1.2 = (execute mail' now job p).1.2
  /\ RunResult.success (execute mail now job p).1.1
     = RunResult.success (execute mail' now job p).1.1
  /\ RunResult.error (execute mail now job p).1.1
     = RunResult.error (execute mail' now job p).1.1
  /\ forget_emails <$> RunResult.results (execute mail now job p).1.1
     = forget_emails <$> RunResult.results (execute mail' now job p).1.1.
Proof.
  unfold execute. destruct (isRunning job); [done|].
  destruct (findMany_active p) as [l|e]; [|done].
  destruct (process_all_mail mail mail' now l
              (with_total (length l) initial_results)
              (with_total (length l) initial_results) p eq_refl) as [Hp Hr].
  destruct (process_all mail now l _ p) as [r1 p1].
  destruct (process_all mail' now l _ p) as [r2 p2].
  simpl in *. by rewrite Hp, Hr.
Qed.

(** ** The counters of the summary *)

Lemma record_result_bounds investment r results :
  Results.completedInvestments results <= Results.processedInvestments results ->
  Results.emailsSent results <= Results.processedInvestments results ->
  Results.completedInvestments (record_result investment r results)
  <= Results.processedInvestments (record_result investment r results)
  /\ Results.emailsSent (record_result investment r results)
     <= Results.processedInvestments (record_result investment r results).
Proof.
  unfold record_result. intros Hc He.
  destruct (ProcessResult.success r); simpl; [|done].
  destruct (truthy (ProcessResult.completed r)),
           (truthy (ProcessResult.emailSent r)); lia.
Qed.

Lemma process_all_bounds mail now investments results p :
  Results.completedInvestments results <= Results.processedInvestments results ->
  Results.emailsSent results <= Results.processedInvestments results ->
  Results.completedInvestments (process_all mail now investments results p).1
  <= Results.processedInvestments (process_all mail now investments results p).1
  /\ Results.emailsSent (process_all mail now investments results p).1
     <= Results.processedInvestments (process_all mail now investments results p).1.
Proof.
  revert results p.
  induction investments as [|i l IH]; intros results p Hc He; simpl; [done|].
  destruct (processInvestment mail now i p) as [r p1].
  destruct (record_result_bounds i r results Hc He). by apply IH.
Qed.

(** X6. In every summary [execute] returns, the completed and the e-mailed
    investments are among the processed ones, and the processed ones among
    the listed ones:
    completedInvestments <= processedInvestments <= totalInvestments and
    emailsSent <= processedInvestments. *)
Theorem summary_counters_bounded mail now job p results :
  RunResult.results (execute mail now job p).1.1 = Some results ->
  Results.completedInvestments results <= Results.processedInvestments results
  /\ Results.emailsSent results <= Results.processedInvestments results
  /\ Results.processedInvestments results <= Results.totalInvestments results.
Proof.
  unfold execute. destruct (isRunning job); [done|].
  destruct (findMany_active p) as [l|e].
  - pose proof (process_all_bounds mail now l
                  (with_total (length l) initial_results) p) as Hb.
    pose proof (process_all_counts mail now l
                  (with_total (length l) initial_results) p) as Hn.
    destruct (process_all mail now l _ p) as [r p']. simpl in *.
    intros [= <-]. destruct Hn as (Ht & Hp & He).
    destruct Hb as [Hb1 Hb2]; [lia|lia|].
    pose proof (succeeded_failed_length (outcomes mail now l p)) as Hs.
    rewrite outcomes_length in Hs. lia.
  - intros [= <-]. simpl. lia.
Qed.

Lemma summary_counters_bounded_witness :
  exists results,
    RunResult.results (execute mail_ok (day 31) new_job (store 40 ACTIVE 40)).1.1
    = Some results
    /\ Results.completedInvestments results <= Results.processedInvestments results
    /\ Results.processedInvestments results <= Results.totalInvestments results.
Proof.
  eexists. split; [vm_compute; reflexivity|].
  destruct (summary_counters_bounded mail_ok (day 31) new_job (store 40 ACTIVE 40)
              _ eq_refl) as (H1 & _ & H2).
  split; [exact H1 | exact H2].
Defined.

(** ** Rows a run does not touch *)

Lemma processInvestment_other_rows mail now investment p k :
  k <> ActiveInvestment.id (row investment) ->
  activeInvestments (db (processInvestment mail now investment p).2) !! k
  = activeInvestments (db p) !! k.
Proof.
  intros Hne.
  destruct (processInvestment_effect mail now investment p)
    as [[-> _] | (_ & delta & _ & _ & Hcom)]; [done|].
  destruct Hcom as (stored' & users' & w & _ & _ & -> & _).
  simpl. by rewrite lookup_insert_ne.
Qed.

Lemma process_all_other_rows mail now investments results p k :
  Forall (fun investment => k <> ActiveInvestment.id (row investment)) investments ->
  activeInvestments (db (process_all mail now investments results p).2) !! k
  = activeInvestments (db p) !! k.
Proof.
  revert results p.
  induction investments as [|i l IH]; intros results p Hall; simpl; [done|].
  apply Forall_cons in Hall as [Hi Hl].
  pose proof (processInvestment_other_rows mail now i p k Hi) as H.
  destruct (processInvestment mail now i p) as [r p1]. simpl in H.
  by rewrite IH.
Qed.

(** X7. A run leaves every COMPLETED investment exactly as it is, provided
    the rows are stored under their ids: whatever else the run processes,
    the row read back afterwards is the same row. *)
Theorem completed_rows_untouched mail now job p k r :
  keyed_by_id (db p) ->
  activeInvestments (db p) !! k = Some r ->
  ActiveInvestment.status r = COMPLETED ->
  activeInvestments (db (execute mail now job p).2) !! k = Some r.
Proof.
  intros Hkey Hr Hst. unfold execute.
  destruct (isRunning job); [done|].
  destruct (findMany_active p) as [l|e] eqn:Hlist; [|done].
  pose proof (process_all_other_rows mail now l
                (with_total (length l) initial_results) p k) as H.
  destruct (process_all mail now l _ p) as [res p']. simpl in *.
  rewrite H; [done|].
  apply Forall_forall. intros i Hi ->.
  destruct (findMany_active_listed p l i Hlist Hi) as (Hact & k' & Hk' & _).
  rewrite <- (Hkey _ _ Hk') in Hk' at 1. congruence.
Qed.

Lemma completed_rows_untouched_witness :
  activeInvestments
    (db (execute mail_ok (day 40) new_job (store 45 COMPLETED 45)).2) !! "i1"
  = Some (position COMPLETED 45).
Proof.
  apply (completed_rows_untouched mail_ok (day 40) new_job
           (store 45 COMPLETED 45) "i1" (position COMPLETED 45)).
  - intros k r Hk. simpl in Hk.
    apply lookup_singleton_Some in Hk as [<- <-]. reflexivity.
  - reflexivity.
  - reflexivity.
Defined.

Lemma findMany_active_none p :
  connected p = true ->
  (forall k r, activeInvestments (db p) !! k = Some r ->
               ActiveInvestment.status r = COMPLETED) ->
  findMany_active p = Returned [].
Proof.
  intros Hc Hall.
  destruct (findMany_active p) as [l|e] eqn:Hlist.
  - destruct l as [|i l]; [done|].
    destruct (findMany_active_listed p (i :: l) i Hlist) as (Hact & k & Hk & _).
    + apply list_elem_of_here.
    + rewrite (Hall _ _ Hk) in Hact. done.
  - unfold findMany_active in Hlist. by rewrite Hc in Hlist.
Qed.

(** X8. When every investment in a reachable store is COMPLETED, a run
    lists nothing: it succeeds with the all-zero summary and leaves the
    store as it is. *)
Theorem run_over_completed_store_is_noop mail now job p :
  isRunning job = false ->
  connected p = true ->
  (forall k r, activeInvestments (db p) !! k = Some r ->
               ActiveInvestment.status r = COMPLETED) ->
  execute mail now job p
  = (RunResult.mk true "Daily profit calculation completed successfully" None
       (Some initial_results),
     set_isRunning false job, p).
Proof.
  intros Hrun Hc Hall. unfold execute.
  by rewrite Hrun, (findMany_active_none p Hc Hall).
Qed.

Lemma run_over_completed_store_is_noop_witness :
  (execute mail_ok (day 40) new_job (store 45 COMPLETED 45)).2
  = store 45 COMPLETED 45.
Proof.
  rewrite (run_over_completed_store_is_noop mail_ok (day 40) new_job
             (store 45 COMPLETED 45)).
  - reflexivity.
  - reflexivity.
  - reflexivity.
  - intros k r Hk. simpl in Hk.
    apply lookup_singleton_Some in Hk as [_ <-]. reflexivity.
Defined.

(** ** The status only moves forward *)

Lemma completed_at_insert d d' k iid r0 r1 :
  activeInvestments d !! iid = Some r0 ->
  activeInvestments d' = <[iid := r1]> (activeInvestments d) ->
  (ActiveInvestment.status r0 = COMPLETED -> ActiveInvestment.status r1 = COMPLETED) ->
  completed_at d k -> completed_at d' k.
Proof.
  intros H0 Hd' Hst (r & Hr & Hc). unfold completed_at. rewrite Hd'.
  destruct (decide (iid = k)) as [->|Hne].
  - rewrite lookup_insert_eq. exists r1. split; [done|].
    apply Hst. congruence.
  - rewrite lookup_insert_ne by done. by exists r.
Qed.

Lemma tx_row_update_keeps_completed {A B}
    (first : Tx A) (iid : string) (f : ActiveInvestment.t -> ActiveInvestment.t)
    (entry : Transaction.t) (last : A -> ActiveInvestment.t -> B) d x d' k :
  (forall a d1, first d = Returned (a, d1) ->
                activeInvestments d1 = activeInvestments d) ->
  (forall r, ActiveInvestment.status r = COMPLETED ->
             ActiveInvestment.status (f r) = COMPLETED) ->
  (a <- first ;;
   r <- activeInvestment_update iid f ;;
   _ <- transaction_create entry ;;
   tx_ret (last a r))%tx d = Returned (x, d') ->
  completed_at d k -> completed_at d' k.
Proof.
  intros Hfirst Hf. unfold tx_bind, activeInvestment_update, transaction_create, tx_ret.
  destruct (first d) as [[a d1]|e] eqn:H1; [|done].
  specialize (Hfirst a d1 eq_refl).
  destruct (activeInvestments d1 !! iid) as [r0|] eqn:H0; [|done].
  intros [= <- <-]. rewrite Hfirst in H0.
  apply (completed_at_insert d _ k iid r0 (f r0) H0); [|by apply Hf].
  simpl. by rewrite Hfirst.
Qed.

Lemma user_update_increment_rows uid delta d u d1 :
  user_update_increment uid delta d = Returned (u, d1) ->
  activeInvestments d1 = activeInvestments d.
Proof.
  unfold user_update_increment. destruct (users d !! uid); [|done].
  by intros [= <- <-].
Qed.

Lemma transaction_keeps_completed {A} (body : Tx A) p k :
  (forall x d', body (db p) = Returned (x, d') ->
                completed_at (db p) k -> completed_at d' k) ->
  completed_at (db p) k -> completed_at (db (transaction body p).2) k.
Proof.
  intros Hbody Hk. unfold transaction. destruct (connected p); [|done].
  destruct (body (db p)) as [[x d']|e] eqn:Hb; [|done].
  simpl. by apply (Hbody x d').
Qed.

Lemma profit_tx_keeps_completed now investment d x d' k :
  profit_tx now investment d = Returned (x, d') ->
  completed_at d k -> completed_at d' k.
Proof.
  unfold profit_tx. cbv zeta.
  apply (tx_row_update_keeps_completed
           (user_update_increment _ _) _ _ _ (fun a r => (a, r, _))).
  - intros a d1. apply user_update_increment_rows.
  - by intros r.
Qed.

Lemma binary64_profit_tx_keeps_completed now investment d x d' k :
  Binary64.profit_tx now investment d = Returned (x, d') ->
  completed_at d k -> completed_at d' k.
Proof.
  unfold Binary64.profit_tx. cbv zeta.
  apply (tx_row_update_keeps_completed
           (user_update_increment _ _) _ _ _ (fun a r => (a, r, _))).
  - intros a d1. apply user_update_increment_rows.
  - by intros r.
Qed.

Lemma complete_tx_keeps_completed now investment d x d' k :
  complete_tx now investment d = Returned (x, d') ->
  completed_at d k -> completed_at d' k.
Proof.
  unfold complete_tx. cbv zeta.
  apply (tx_row_update_keeps_completed _ _ _ _ (fun a r => (a, r, _))).
  - intros a d1. destruct (positive _).
    + unfold tx_bind, transaction_create, tx_ret.
      destruct (user_update_increment _ _ d) as [[u d2]|e] eqn:Hu; [|done].
      intros [= <- <-]. simpl. by eapply user_update_increment_rows.
    + unfold tx_ret. by intros [= <- <-].
  - by intros r.
Qed.

Lemma binary64_complete_tx_keeps_completed now investment d x d' k :
  Binary64.complete_tx now investment d = Returned (x, d') ->
  completed_at d k -> completed_at d' k.
Proof.
  unfold Binary64.complete_tx. cbv zeta.
  apply (tx_row_update_keeps_completed _ _ _ _ (fun a r => (a, r, _))).
  - intros a d1. destruct (PrimFloat.ltb _ _).
    + unfold tx_bind, transaction_create, tx_ret.
      destruct (user_update_increment _ _ d) as [[u d2]|e] eqn:Hu; [|done].
      intros [= <- <-]. simpl. by eapply user_update_increment_rows.
    + unfold tx_ret. by intros [= <- <-].
  - by intros r.
Qed.

Lemma processInvestment_keeps_completed mail now investment p k :
  completed_at (db p) k ->
  completed_at (db (processInvestment mail now investment p).2) k.
Proof.
  intros Hk. unfold processInvestment, completeInvestment.
  destruct (_ <? now)%Z.
  { pose proof (transaction_keeps_completed (complete_tx now investment) p k
                  (fun x d' => complete_tx_keeps_completed now investment _ x d' k) Hk).
    by destruct (transaction (complete_tx now investment) p) as [[?|?] ?]. }
  destruct (_ <? 1)%Z; [done|].
  destruct (Qle_bool _ _); [done|].
  pose proof (transaction_keeps_completed (profit_tx now investment) p k
                (fun x d' => profit_tx_keeps_completed now investment _ x d' k) Hk).
  by destruct (transaction (profit_tx now investment) p) as [[?|?] ?].
Qed.

Lemma process_all_keeps_completed mail now investments results p k :
  completed_at (db p) k ->
  completed_at (db (process_all mail now investments results p).2) k.
Proof.
  revert results p.
  induction investments as [|i l IH]; intros results p Hk; simpl; [done|].
  pose proof (processInvestment_keeps_completed mail now i p k Hk) as H.
  destruct (processInvestment mail now i p) as [r p']. by apply IH.
Qed.

(** X9. The status only moves forward: a row stored as COMPLETED is still
    stored and still COMPLETED after [processInvestment] on any investment
    object -- also a stale one that says ACTIVE -- and after a whole run of
    [execute].  No branch writes ACTIVE, so this holds whichever way the
    amounts are computed. *)
Theorem status_never_returns_to_active mail now investment job p k :
  completed_at (db p) k ->
  completed_at (db (processInvestment mail now investment p).2) k
  /\ completed_at (db (Binary64.processInvestment mail now investment p).2) k
  /\ completed_at (db (execute mail now job p).2) k.
Proof.
  intros Hk. split; [by apply processInvestment_keeps_completed|]. split.
  - unfold Binary64.processInvestment, Binary64.completeInvestment.
    destruct (_ <? now)%Z.
    { pose proof (transaction_keeps_completed (Binary64.complete_tx now investment) p k
                    (fun x d' =>
                       binary64_complete_tx_keeps_completed now investment _ x d' k) Hk).
      by destruct (transaction (Binary64.complete_tx now investment) p) as [[?|?] ?]. }
    destruct (_ <? 1)%Z; [done|].
    destruct (PrimFloat.leb _ _); [done|].
    pose proof (transaction_keeps_completed (Binary64.profit_tx now investment) p k
                  (fun x d' =>
                     binary64_profit_tx_keeps_completed now investment _ x d' k) Hk).
    by destruct (transaction (Binary64.profit_tx now investment) p) as [[?|?] ?].
  - unfold execute. destruct (isRunning job); [done|].
    destruct (findMany_active p) as [l|e]; [|done].
    pose proof (process_all_keeps_completed mail now l
                  (with_total (length l) initial_results) p k Hk) as H.
    by destruct (process_all mail now l _ p) as [r p'].
Qed.

(** The row is COMPLETED at 45 and the object handed in is a stale ACTIVE
    copy with nothing earned: ten days in, the row is written again and stays
    COMPLETED. *)
Lemma status_never_returns_to_active_witness :
  completed_at (db (store 45 COMPLETED 45)) "i1"
  /\ completed_at
       (db (processInvestment mail_ok (day 10) (snapshot 45 ACTIVE 0)
              (store 45 COMPLETED 45)).2) "i1"
  /\ (processInvestment mail_ok (day 10) (snapshot 45 ACTIVE 0)
        (store 45 COMPLETED 45)).2 <> store 45 COMPLETED 45.
Proof.
  assert (H : completed_at (db (store 45 COMPLETED 45)) "i1").
  { eexists. split; [reflexivity|reflexivity]. }
  split; [exact H|]. split.
  - apply (status_never_returns_to_active mail_ok (day 10) (snapshot 45 ACTIVE 0)
             new_job (store 45 COMPLETED 45) "i1" H).
  - vm_compute. congruence.
Defined.

(** * The job scheduler *)

(** ** Handles *)

Lemma handles_ok_task_set handle b s :
  handles_ok s -> handles_ok (task_set handle b s).
Proof.
  intros [Hlt Hinj]. split; simpl.
  - intros n job Hn. rewrite length_alter. by eapply Hlt.
  - exact Hinj.
Qed.

Lemma handles_ok_update jobName job job' s :
  scheduledJobs s !! jobName = Some job ->
  ScheduledJob.task job' = ScheduledJob.task job ->
  handles_ok s -> handles_ok (jobs_set jobName job' s).
Proof.
  intros Hjob Htask [Hlt Hinj]. split; simpl.
  - intros n j. rewrite lookup_insert. case_decide; [|by apply Hlt].
    intros [= <-]. rewrite Htask. by eapply Hlt.
  - intros n1 n2 j1 j2. rewrite !lookup_insert.
    destruct (decide (jobName = n1)) as [<-|H1], (decide (jobName = n2)) as [<-|H2];
      try done.
    + intros [= <-] H Heq. rewrite Htask in Heq. by eapply Hinj.
    + intros H [= <-] Heq. rewrite Htask in Heq. by eapply Hinj.
    + apply Hinj.
Qed.

Lemma handles_ok_register jobName job task s :
  ScheduledJob.task job = length (tasks s) ->
  handles_ok s ->
  handles_ok (mkScheduler (tasks s ++ [task])
                (<[jobName := job]> (scheduledJobs s)) (isInitialized s)).
Proof.
  intros Htask [Hlt Hinj]. split; simpl.
  - intros n j. rewrite lookup_insert, length_app. simpl.
    case_decide.
    + intros [= <-]. lia.
    + intros Hn. specialize (Hlt _ _ Hn). lia.
  - intros n1 n2 j1 j2. rewrite !lookup_insert.
    destruct (decide (jobName = n1)) as [<-|H1], (decide (jobName = n2)) as [<-|H2];
      try done.
    + intros [= <-] H Heq. specialize (Hlt _ _ H). lia.
    + intros H [= <-] Heq. specialize (Hlt _ _ H). lia.
    + apply Hinj.
Qed.

Lemma handles_ok_delete jobName s :
  handles_ok s ->
  handles_ok (mkScheduler (tasks s) (delete jobName (scheduledJobs s))
                (isInitialized s)).
Proof.
  intros [Hlt Hinj]. split; simpl.
  - intros n j [_ Hn]%lookup_delete_Some. by eapply Hlt.
  - intros n1 n2 j1 j2 [_ H1]%lookup_delete_Some [_ H2]%lookup_delete_Some.
    by eapply Hinj.
Qed.

Lemma stop_all_tasks ts (jobs : gmap string ScheduledJob.t) handle :
  let ts' := map_fold (fun _ job r =>
                         alter (Cron.set_started false) (ScheduledJob.task job) r)
                      ts jobs in
  length ts' = length ts
  /\ (ts' !! handle = ts !! handle
      \/ ts' !! handle = Cron.set_started false <$> ts !! handle)
  /\ ((exists jobName job,
         jobs !! jobName = Some job /\ ScheduledJob.task job = handle) ->
      ts' !! handle = Cron.set_started false <$> ts !! handle)
  /\ ((forall jobName job,
         jobs !! jobName = Some job -> ScheduledJob.task job <> handle) ->
      ts' !! handle = ts !! handle).
Proof.
  cbv zeta.
  apply (map_fold_weak_ind
           (fun r (m : gmap string ScheduledJob.t) =>
              length r = length ts
              /\ (r !! handle = ts !! handle
                  \/ r !! handle = Cron.set_started false <$> ts !! handle)
              /\ ((exists jobName job,
                     m !! jobName = Some job /\ ScheduledJob.task job = handle) ->
                  r !! handle = Cron.set_started false <$> ts !! handle)
              /\ ((forall jobName job,
                     m !! jobName = Some job -> ScheduledJob.task job <> handle) ->
                  r !! handle = ts !! handle))).
  - split; [done|]. split; [by left|]. split; [|done].
    intros (n & j & Hn & _). by rewrite lookup_empty in Hn.
  - intros i x m r Hnone (Hlen & Hcase & Hin & Hout).
    assert (Hstop : forall t, Cron.set_started false (Cron.set_started false t)
                              = Cron.set_started false t) by done.
    destruct (decide (ScheduledJob.task x = handle)) as [<-|Hne].
    + rewrite length_alter, list_lookup_alter_eq.
      assert (Hnew : Cron.set_started false <$> r !! ScheduledJob.task x
                     = Cron.set_started false <$> ts !! ScheduledJob.task x).
      { destruct Hcase as [-> | ->]; [done|].
        destruct (ts !! ScheduledJob.task x); [|done]. simpl. by rewrite Hstop. }
      split; [done|]. split; [by right|]. split; [done|].
      intros Hall. exfalso. apply (Hall i x); [apply lookup_insert_eq|done].
    + rewrite length_alter, list_lookup_alter_ne by done.
      split; [done|]. split; [done|]. split.
      * intros (n & j & Hn & Hj). apply Hin. exists n, j. split; [|done].
        rewrite lookup_insert in Hn. case_decide; [|done].
        simplify_eq.
      * intros Hall. apply Hout. intros n j Hn. apply (Hall n j).
        rewrite lookup_insert_ne; [done|]. intros ->. congruence.
Qed.

Lemma handles_ok_stopAllJobs s : handles_ok s -> handles_ok (stopAllJobs s).
Proof.
  intros [Hlt Hinj]. split; simpl.
  - intros n j. rewrite lookup_fmap.
    destruct (scheduledJobs s !! n) as [j0|] eqn:Hn; [|done].
    intros [= <-]. simpl.
    destruct (stop_all_tasks (tasks s) (scheduledJobs s) 0) as (-> & _).
    by eapply Hlt.
  - intros n1 n2 j1 j2. rewrite !lookup_fmap.
    destruct (scheduledJobs s !! n1) as [a|] eqn:H1; [|done].
    destruct (scheduledJobs s !! n2) as [b|] eqn:H2; [|done].
    intros [= <-] [= <-]. simpl. by eapply Hinj.
Qed.

Lemma handles_ok_scheduleDailyProfitJob validate config s s' :
  handles_ok s ->
  scheduleDailyProfitJob validate config s = Returned s' ->
  handles_ok s'.
Proof.
  intros Hok. unfold scheduleDailyProfitJob, cron_schedule.
  destruct (validate daily_expression); [|done].
  intros [= <-]. apply handles_ok_task_set.
  unfold jobs_set. simpl. by apply handles_ok_register.
Qed.

Lemma handles_ok_step validate config s op :
  handles_ok s -> handles_ok (scheduler_step validate config s op).
Proof.
  intros Hok. destruct op as [|n|n| |n e o|n|]; simpl.
  - unfold initialize. destruct (isInitialized s); [done|].
    destruct (negb _); [done|].
    destruct (scheduleDailyProfitJob validate config s) as [s'|msg] eqn:Hs; [|done].
    apply (handles_ok_scheduleDailyProfitJob _ _ _ _ Hok) in Hs.
    destruct Hs. by split.
  - unfold startJob. destruct (scheduledJobs s !! n) as [job|] eqn:Hn; [|done].
    simpl. eapply handles_ok_update; [exact Hn|done|].
    by apply handles_ok_task_set.
  - unfold stopJob. destruct (scheduledJobs s !! n) as [job|] eqn:Hn; [|done].
    simpl. eapply handles_ok_update; [exact Hn|done|].
    by apply handles_ok_task_set.
  - by apply handles_ok_stopAllJobs.
  - unfold scheduleCustomJob, cron_schedule.
    destruct (scheduledJobs s !! n); [done|].
    destruct (validate e); [|done].
    destruct (Options.startImmediately o) as [[|]|];
      try apply handles_ok_task_set;
      unfold jobs_set; simpl; by apply handles_ok_register.
  - unfold removeJob. destruct (scheduledJobs s !! n) as [job|] eqn:Hn; [|done].
    simpl. apply (handles_ok_delete n (task_set (ScheduledJob.task job) false s)).
    by apply handles_ok_task_set.
  - unfold shutdown. split; simpl; intros *; by rewrite lookup_empty.
Qed.

(** X11. Whatever operations are invoked on the scheduler, starting from a
    new one (calls that throw included), every registered job refers to a
    task that exists and no two jobs share a task. *)
Theorem scheduler_handles_ok validate config ops :
  handles_ok (scheduler_run validate config ops new_scheduler).
Proof.
  unfold scheduler_run.
  assert (H0 : handles_ok new_scheduler).
  { split; simpl; intros *; by rewrite lookup_empty. }
  revert H0. generalize new_scheduler.
  induction ops as [|op ops IH]; intros s Hs; simpl; [done|].
  apply IH. by apply handles_ok_step.
Qed.

(** ** Starting and stopping one job *)

Lemma task_set_started handle b s :
  handle < length (tasks s) ->
  task_started (task_set handle b s) handle = Some b.
Proof.
  intros Hlt. unfold task_started, task_set. simpl.
  rewrite list_lookup_alter_eq.
  destruct (lookup_lt_is_Some_2 (tasks s) handle Hlt) as [t ->]. done.
Qed.

Lemma task_set_other handle handle' b s :
  handle <> handle' ->
  task_started (task_set handle b s) handle' = task_started s handle'.
Proof.
  intros Hne. unfold task_started, task_set. simpl.
  by rewrite list_lookup_alter_ne.
Qed.

(** X12. [startJob] and [stopJob] on a registered job return true, switch
    the task of that job on or off and set its [isRunning] flag to match;
    every other job keeps its entry and the state of its task. *)
Theorem start_stop_touch_one_job s jobName job :
  handles_ok s ->
  scheduledJobs s !! jobName = Some job ->
  ((startJob jobName s).1 = true
   /\ scheduledJobs (startJob jobName s).2 !! jobName
      = Some (ScheduledJob.set_isRunning true job)
   /\ task_started (startJob jobName s).2 (ScheduledJob.task job) = Some true
   /\ forall other job',
        other <> jobName ->
        scheduledJobs s !! other = Some job' ->
        scheduledJobs (startJob jobName s).2 !! other = Some job'
        /\ task_started (startJob jobName s).2 (ScheduledJob.task job')
           = task_started s (ScheduledJob.task job'))
  /\ ((stopJob jobName s).1 = true
      /\ scheduledJobs (stopJob jobName s).2 !! jobName
         = Some (ScheduledJob.set_isRunning false job)
      /\ task_started (stopJob jobName s).2 (ScheduledJob.task job) = Some false
      /\ forall other job',
           other <> jobName ->
           scheduledJobs s !! other = Some job' ->
           scheduledJobs (stopJob jobName s).2 !! other = Some job'
           /\ task_started (stopJob jobName s).2 (ScheduledJob.task job')
              = task_started s (ScheduledJob.task job')).
Proof.
  intros [Hlt Hinj] Hjob. unfold startJob, stopJob. rewrite Hjob. simpl.
  pose proof (Hlt _ _ Hjob) as Hh.
  assert (Hother : forall other job', other <> jobName ->
            scheduledJobs s !! other = Some job' ->
            ScheduledJob.task job <> ScheduledJob.task job').
  { intros other job' Hne Ho Heq. apply Hne. symmetry. by eapply Hinj. }
  split.
  - split; [done|]. split; [apply lookup_insert_eq|].
    split; [by apply (task_set_started _ true s)|].
    intros other job' Hne Ho. split.
    + by rewrite lookup_insert_ne.
    + apply (task_set_other _ _ true s). by eapply Hother.
  - split; [done|]. split; [apply lookup_insert_eq|].
    split; [by apply (task_set_started _ false s)|].
    intros other job' Hne Ho. split.
    + by rewrite lookup_insert_ne.
    + apply (task_set_other _ _ false s). by eapply Hother.
Qed.

(** ** [initialize] *)

Lemma scheduleDailyProfitJob_valid validate config s :
  validate daily_expression = true ->
  scheduleDailyProfitJob validate config s
  = Returned
      (mkScheduler
         (tasks s ++
          [Cron.mk daily_expression (or_else (profitJobTimezone config) "UTC")
             Cron.DailyProfit true])
         (<["dailyProfitJob" :=
              ScheduledJob.mk (length (tasks s)) "Daily Profit Calculation"
                daily_expression
                "Calculates and distributes daily profits for active investments"
                false]> (scheduledJobs s))
         (isInitialized s)).
Proof.
  intros Hv. unfold scheduleDailyProfitJob, cron_schedule. rewrite Hv.
  unfold task_set, jobs_set. simpl. do 2 f_equal.
  replace (length (tasks s)) with (length (tasks s) + 0) at 1 by lia.
  by rewrite alter_app_r.
Qed.

(** X13. With jobs enabled and the daily expression accepted, [initialize]
    on a scheduler that is not initialized registers 'dailyProfitJob' with a
    new task for the daily callback, started, at '0 0 * * *' in the
    configured time zone (UTC when empty); the entry's own [isRunning] flag
    stays false although the task fires.  Other jobs and tasks are left
    alone, and a second [initialize] changes nothing. *)
Theorem initialize_arms_daily_job validate config s :
  isInitialized s = false ->
  profitJobEnabled config = true ->
  validate daily_expression = true ->
  exists s' job,
    initialize validate config s = Returned s'
    /\ isInitialized s' = true
    /\ scheduledJobs s' !! "dailyProfitJob" = Some job
    /\ ScheduledJob.task job = length (tasks s)
    /\ ScheduledJob.isRunning job = false
    /\ tasks s' !! ScheduledJob.task job
       = Some (Cron.mk "0 0 * * *" (or_else (profitJobTimezone config) "UTC")
                 Cron.DailyProfit true)
    /\ (forall other, other <> "dailyProfitJob" ->
                      scheduledJobs s' !! other = scheduledJobs s !! other)
    /\ (forall handle, handle < length (tasks s) ->
                       tasks s' !! handle = tasks s !! handle)
    /\ initialize validate config s' = Returned s'.
Proof.
  intros Hinit Hen Hv. unfold initialize at 1.
  rewrite Hinit, Hen, (scheduleDailyProfitJob_valid validate config s Hv). simpl.
  eexists _, _. split; [reflexivity|]. simpl.
  split; [done|]. split; [apply lookup_insert_eq|]. simpl.
  split; [done|]. split; [done|].
  split; [by apply list_lookup_middle|].
  split; [intros other Hne; by rewrite lookup_insert_ne|].
  split; [intros handle Hlt; by apply lookup_app_l|]. done.
Qed.

Lemma initialize_arms_daily_job_witness :
  exists s' job,
    initialize accepts jobs_on new_scheduler = Returned s'
    /\ scheduledJobs s' !! "dailyProfitJob" = Some job
    /\ ScheduledJob.isRunning job = false
    /\ task_started s' (ScheduledJob.task job) = Some true.
Proof.
  destruct (initialize_arms_daily_job accepts jobs_on new_scheduler)
    as (s' & job & H1 & _ & H2 & _ & H3 & H4 & _); try reflexivity.
  exists s', job. split; [exact H1|]. split; [exact H2|]. split; [exact H3|].
  unfold task_started. by rewrite H4.
Defined.

(** X14. [initialize] does not look for an entry already stored under
    'dailyProfitJob': it replaces the entry, and the task of the replaced job
    stays in the state it was in, with no registered job referring to it any
    more, so the scheduler can no longer stop it. *)
Theorem initialize_leaves_replaced_task validate config s old :
  handles_ok s ->
  scheduledJobs s !! "dailyProfitJob" = Some old ->
  isInitialized s = false ->
  profitJobEnabled config = true ->
  validate daily_expression = true ->
  exists s',
    initialize validate config s = Returned s'
    /\ task_started s' (ScheduledJob.task old) = task_started s (ScheduledJob.task old)
    /\ forall jobName job,
         scheduledJobs s' !! jobName = Some job ->
         ScheduledJob.task job <> ScheduledJob.task old.
Proof.
  intros [Hlt Hinj] Hold Hinit Hen Hv. unfold initialize.
  rewrite Hinit, Hen, (scheduleDailyProfitJob_valid validate config s Hv). simpl.
  eexists. split; [reflexivity|].
  pose proof (Hlt _ _ Hold) as Hh. split.
  - unfold task_started. simpl. by rewrite lookup_app_l.
  - simpl. intros n job. rewrite lookup_insert. case_decide.
    + intros [= <-]. simpl. lia.
    + intros Hn Heq. by pose proof (Hinj _ _ _ _ Hn Hold Heq).
Qed.

Lemma initialize_leaves_replaced_task_witness :
  exists s',
    scheduledJobs custom_daily !! "dailyProfitJob" = Some custom_daily_job
    /\ initialize accepts jobs_on custom_daily = Returned s'
    /\ task_started s' (ScheduledJob.task custom_daily_job) = Some true
    /\ forall jobName job,
         scheduledJobs s' !! jobName = Some job ->
         ScheduledJob.task job <> ScheduledJob.task custom_daily_job.
Proof.
  destruct (initialize_leaves_replaced_task accepts jobs_on custom_daily
              custom_daily_job) as (s' & H1 & H2 & H3); try reflexivity.
  - apply (handles_ok_step accepts jobs_on new_scheduler
             (OpCustom "dailyProfitJob" "*/5 * * * *" no_options)).
    split; simpl; intros *; by rewrite lookup_empty.
  - exists s'. split; [reflexivity|]. split; [exact H1|].
    split; [by rewrite H2 | exact H3].
Defined.

Lemma custom_daily_handles_ok : handles_ok custom_daily.
Proof.
  apply (handles_ok_step accepts jobs_on new_scheduler
           (OpCustom "dailyProfitJob" "*/5 * * * *" no_options)).
  split; simpl; intros *; by rewrite lookup_empty.
Qed.

Lemma start_stop_touch_one_job_witness :
  task_started (stopJob "dailyProfitJob" custom_daily).2 0 = Some false
  /\ task_started (startJob "dailyProfitJob" custom_daily).2 0 = Some true.
Proof.
  destruct (start_stop_touch_one_job custom_daily "dailyProfitJob" custom_daily_job)
    as [(_ & _ & H1 & _) (_ & _ & H2 & _)].
  - exact custom_daily_handles_ok.
  - reflexivity.
  - split; [exact H2 | exact H1].
Defined.

(** ** Custom jobs *)

(** X15. [scheduleCustomJob] never replaces a job: under a name already
    registered it returns false and changes nothing, whatever the expression.
    Under a new name an expression that node-cron rejects makes it throw;
    one it accepts registers the job with a new task, started unless
    [startImmediately] is false, with the entry's [isRunning] flag false
    either way, and leaves the other jobs and tasks as they are. *)
Theorem scheduleCustomJob_registers_once validate config jobName expression options s :
  (is_Some (scheduledJobs s !! jobName) ->
   scheduleCustomJob validate config jobName expression options s
   = Returned (false, s))
  /\ (scheduledJobs s !! jobName = None ->
      validate expression = false ->
      exists msg,
        scheduleCustomJob validate config jobName expression options s = Threw msg)
  /\ (scheduledJobs s !! jobName = None ->
      validate expression = true ->
      exists s' job,
        scheduleCustomJob validate config jobName expression options s
        = Returned (true, s')
        /\ scheduledJobs s' = <[jobName := job]> (scheduledJobs s)
        /\ ScheduledJob.task job = length (tasks s)
        /\ ScheduledJob.cronExpression job = expression
        /\ ScheduledJob.isRunning job = false
        /\ task_started s' (ScheduledJob.task job)
           = Some (match Options.startImmediately options with
                   | Some false => false
                   | _ => true
                   end)
        /\ (forall handle, handle < length (tasks s) ->
                           tasks s' !! handle = tasks s !! handle)
        /\ isInitialized s' = isInitialized s).
Proof.
  unfold scheduleCustomJob, cron_schedule. split; [|split].
  - intros [job ->]. done.
  - intros -> ->. by eexists.
  - intros -> ->. eexists _, _. split; [reflexivity|].
    assert (Hnew : forall b,
              alter (Cron.set_started b) (length (tasks s))
                (tasks s ++ [Cron.mk expression
                               (field_or_else (Options.timezone options)
                                  (or_else (profitJobTimezone config) "UTC"))
                               (Cron.Custom jobName) false])%list
              = (tasks s ++ [Cron.mk expression
                               (field_or_else (Options.timezone options)
                                  (or_else (profitJobTimezone config) "UTC"))
                               (Cron.Custom jobName) b])%list).
    { intros b.
      replace (length (tasks s)) with (length (tasks s) + 0) at 1 by lia.
      by rewrite alter_app_r. }
    unfold task_started.
    destruct (Options.startImmediately options) as [[|]|];
      unfold task_set, jobs_set; simpl; rewrite ?Hnew;
      (split; [done|]); (split; [done|]); (split; [done|]); (split; [done|]);
      (split; [by rewrite list_lookup_middle|]);
      (split; [|done]); intros handle Hlt; by apply lookup_app_l.
Qed.

Lemma scheduleCustomJob_registers_once_witness :
  scheduleCustomJob accepts jobs_on "dailyProfitJob" EmptyString no_options custom_daily
  = Returned (false, custom_daily)
  /\ (exists msg,
        scheduleCustomJob accepts jobs_on "report" EmptyString no_options custom_daily
        = Threw msg)
  /\ (exists s',
        scheduleCustomJob accepts jobs_on "report" "0 6 * * 1"
          (Options.mk None None None (Some false)) custom_daily
        = Returned (true, s')
        /\ task_started s' 1 = Some false).
Proof.
  split; [|split].
  - apply (scheduleCustomJob_registers_once accepts jobs_on "dailyProfitJob" EmptyString
             no_options custom_daily). by eexists.
  - apply (scheduleCustomJob_registers_once accepts jobs_on "report" EmptyString
             no_options custom_daily); reflexivity.
  - destruct (scheduleCustomJob_registers_once accepts jobs_on "report" "0 6 * * 1"
                (Options.mk None None None (Some false)) custom_daily)
      as (_ & _ & H).
    destruct H as (s' & job & H1 & _ & H2 & _ & _ & H3 & _); try reflexivity.
    exists s'. split; [exact H1|]. rewrite H2 in H3. exact H3.
Defined.

(** X16. Removing a custom job right after registering it under a new name
    gives back the job table as it was; what remains is the task that was
    created, stopped, and the tasks that were there before, untouched. *)
Theorem removeJob_undoes_scheduleCustomJob validate config jobName expression options s s' :
  scheduledJobs s !! jobName = None ->
  scheduleCustomJob validate config jobName expression options s
  = Returned (true, s') ->
  (removeJob jobName s').1 = true
  /\ scheduledJobs (removeJob jobName s').2 = scheduledJobs s
  /\ isInitialized (removeJob jobName s').2 = isInitialized s
  /\ task_started (removeJob jobName s').2 (length (tasks s)) = Some false
  /\ length (tasks (removeJob jobName s').2) = S (length (tasks s))
  /\ forall handle, handle < length (tasks s) ->
                    tasks (removeJob jobName s').2 !! handle = tasks s !! handle.
Proof.
  intros Hnone Hsched.
  unfold scheduleCustomJob, cron_schedule in Hsched. rewrite Hnone in Hsched.
  destruct (validate expression); [|done].
  assert (Hlookup : forall (l : list Cron.task) t, (l ++ [t])%list !! length l = Some t)
    by (intros l t; by apply list_lookup_middle).
  assert (Hs' : scheduledJobs s'
                = <[jobName :=
                      ScheduledJob.mk (length (tasks s))
                        (field_or_else (Options.displayName options) jobName)
                        expression
                        (field_or_else (Options.description options)
                           "Custom scheduled job") false]> (scheduledJobs s)
                /\ isInitialized s' = isInitialized s
                /\ length (tasks s') = S (length (tasks s))
                /\ forall handle, handle < length (tasks s) ->
                                  tasks s' !! handle = tasks s !! handle).
  { destruct (Options.startImmediately options) as [[|]|];
      injection Hsched as <-; unfold task_set, jobs_set; simpl;
      rewrite ?length_alter, length_app; simpl;
      (split; [done|]); (split; [done|]); (split; [lia|]);
      intros handle Hlt; rewrite ?list_lookup_alter_ne by lia;
      by apply lookup_app_l. }
  destruct Hs' as (Hjobs & Hinit & Hlen & Hold).
  unfold removeJob. rewrite Hjobs, lookup_insert_eq. simpl.
  split; [done|]. split; [rewrite Hjobs; by apply delete_insert_id|].
  split; [done|]. split.
  - apply (task_set_started (length (tasks s)) false s'). lia.
  - split; [by rewrite length_alter|].
    intros handle Hlt. rewrite list_lookup_alter_ne by lia. by apply Hold.
Qed.

Lemma removeJob_undoes_scheduleCustomJob_witness :
  scheduledJobs
    (removeJob "dailyProfitJob" custom_daily).2 = scheduledJobs new_scheduler
  /\ task_started (removeJob "dailyProfitJob" custom_daily).2 0 = Some false.
Proof.
  destruct (removeJob_undoes_scheduleCustomJob accepts jobs_on "dailyProfitJob"
              "*/5 * * * *" no_options new_scheduler custom_daily)
    as (_ & H1 & _ & H2 & _); try reflexivity.
  split; [exact H1 | exact H2].
Defined.

(** ** Stopping everything *)

(** X17. [stopAllJobs] keeps every job registered, sets every [isRunning]
    flag to false and stops the task of every registered job; a task no
    registered job refers to is left in its state.  [shutdown] does the same
    to the tasks, then forgets all jobs and clears [isInitialized]. *)
Theorem stopAllJobs_stops_every_registered_task s :
  handles_ok s ->
  (forall jobName,
     scheduledJobs (stopAllJobs s) !! jobName
     = ScheduledJob.set_isRunning false <$> scheduledJobs s !! jobName)
  /\ (forall jobName job,
        scheduledJobs s !! jobName = Some job ->
        task_started (stopAllJobs s) (ScheduledJob.task job) = Some false
        /\ task_started (shutdown s) (ScheduledJob.task job) = Some false)
  /\ (forall handle,
        (forall jobName job,
           scheduledJobs s !! jobName = Some job ->
           ScheduledJob.task job <> handle) ->
        tasks (stopAllJobs s) !! handle = tasks s !! handle)
  /\ isInitialized (stopAllJobs s) = isInitialized s
  /\ scheduledJobs (shutdown s) = ∅
  /\ isInitialized (shutdown s) = false.
Proof.
  intros [Hlt _]. split; [|split; [|split]].
  - intros n. unfold stopAllJobs. simpl. apply lookup_fmap.
  - intros n job Hn.
    destruct (stop_all_tasks (tasks s) (scheduledJobs s) (ScheduledJob.task job))
      as (_ & _ & Hin & _).
    assert (H : task_started (stopAllJobs s) (ScheduledJob.task job) = Some false).
    { unfold task_started, stopAllJobs. simpl.
      rewrite Hin by (by exists n, job).
      destruct (lookup_lt_is_Some_2 (tasks s) _ (Hlt _ _ Hn)) as [t ->]. done. }
    split; exact H.
  - intros handle Hfree.
    destruct (stop_all_tasks (tasks s) (scheduledJobs s) handle) as (_ & _ & _ & Hout).
    by apply Hout.
  - done.
Qed.

Lemma stopAllJobs_stops_every_registered_task_witness :
  task_started (stopAllJobs custom_daily) 0 = Some false
  /\ scheduledJobs (shutdown custom_daily) = ∅.
Proof.
  destruct (stopAllJobs_stops_every_registered_task custom_daily
              custom_daily_handles_ok) as (_ & H1 & _ & _ & H2 & _).
  split; [|exact H2].
  apply (H1 "dailyProfitJob" custom_daily_job). reflexivity.
Defined.

(** X18. Once initialized, [initialize] is a no-op whatever the
    configuration, so the daily job does not come back after
    [removeJob]; after [shutdown] it does: [initialize] registers and
    starts it again. *)
Theorem daily_job_returns_only_after_shutdown validate config s :
  isInitialized s = true ->
  profitJobEnabled config = true ->
  validate daily_expression = true ->
  initialize validate config (removeJob "dailyProfitJob" s).2
  = Returned (removeJob "dailyProfitJob" s).2
  /\ scheduledJobs (removeJob "dailyProfitJob" s).2 !! "dailyProfitJob" = None
  /\ exists s' job,
       initialize validate config (shutdown s) = Returned s'
       /\ isInitialized s' = true
       /\ scheduledJobs s' !! "dailyProfitJob" = Some job
       /\ task_started s' (ScheduledJob.task job) = Some true.
Proof.
  intros Hinit Hen Hv. split; [|split].
  - unfold initialize, removeJob.
    destruct (scheduledJobs s !! "dailyProfitJob"); simpl; by rewrite Hinit.
  - unfold removeJob.
    destruct (scheduledJobs s !! "dailyProfitJob") eqn:Hd; simpl; [|done].
    apply lookup_delete_eq.
  - unfold initialize. simpl.
    rewrite Hen, (scheduleDailyProfitJob_valid validate config (shutdown s) Hv).
    simpl. eexists _, _. split; [reflexivity|]. simpl.
    split; [done|]. split; [apply lookup_insert_eq|].
    unfold task_started. simpl. by rewrite list_lookup_middle.
Qed.

Lemma daily_job_returns_only_after_shutdown_witness :
  exists s1,
    initialize accepts jobs_on new_scheduler = Returned s1
    /\ initialize accepts jobs_on (removeJob "dailyProfitJob" s1).2
       = Returned (removeJob "dailyProfitJob" s1).2
    /\ scheduledJobs (removeJob "dailyProfitJob" s1).2 !! "dailyProfitJob" = None.
Proof.
  eexists. split; [reflexivity|].
  destruct (daily_job_returns_only_after_shutdown accepts jobs_on
              (mkScheduler
                 (tasks new_scheduler ++
                  [Cron.mk daily_expression "UTC" Cron.DailyProfit true])
                 (<["dailyProfitJob" :=
                      ScheduledJob.mk 0 "Daily Profit Calculation" daily_expression
                        "Calculates and distributes daily profits for active investments"
                        false]> ∅)
                 true)) as (H1 & H2 & _); try reflexivity.
  split; [exact H1 | exact H2].
Defined.

(** * The admin endpoints *)

Lemma execute_connected mail now job p :
  connected (execute mail now job p).2 = connected p.
Proof. by destruct (execute_only_adds mail now job p) as (H & _). Qed.

Lemma execute_success mail now job p :
  connected p = true ->
  RunResult.success (execute mail now job p).1.1 = negb (isRunning job).
Proof.
  intros Hc. unfold execute. destruct (isRunning job); [done|].
  unfold findMany_active. rewrite Hc.
  by destruct (process_all _ _ _ _ _).
Qed.

Lemma execute_flag mail now job p :
  isRunning (execute mail now job p).1.2 = isRunning job.
Proof.
  unfold execute. destruct (isRunning job) eqn:Hr; [done|].
  destruct (findMany_active p); [|done].
  by destruct (process_all _ _ _ _ _).
Qed.

(** X19. The manual trigger.  With the store reachable the handler always
    answers success: true, runs the job, and appends one admin log entry
    carrying the job's own success flag; the message is 'Daily profit job
    executed successfully' exactly when no run was in progress, and
    'completed with errors' stands for the refused re-entrant call, not for
    investments that failed.  With the store unreachable the handler throws
    the store error, writes no log, and leaves the store and the running
    flag as they were. *)
Theorem trigger_handler_reports mail now admin b :
  (connected (the_store b) = true ->
   exists response log,
     (trigger_handler mail now admin b).1 = Sent response
     /\ TriggerResponse.success response = true
     /\ TriggerResponse.jobResult response
        = (execute mail now (the_job b) (the_store b)).1.1
     /\ (TriggerResponse.message response = "Daily profit job executed successfully"
         <-> isRunning (the_job b) = false)
     /\ (TriggerResponse.message response = "Daily profit job completed with errors"
         <-> isRunning (the_job b) = true)
     /\ adminLogs (trigger_handler mail now admin b).2 = (adminLogs b ++ [log])%list
     /\ AdminLog.admin_id log = admin_user_id admin
     /\ exists processed total errors,
          AdminLog.entry log
          = AdminLog.TRIGGER_DAILY_PROFIT_JOB (negb (isRunning (the_job b)))
              processed total errors)
  /\ (connected (the_store b) = false ->
      (trigger_handler mail now admin b).1 = Thrown (StoreError unreachable_msg)
      /\ adminLogs (trigger_handler mail now admin b).2 = adminLogs b
      /\ the_store (trigger_handler mail now admin b).2 = the_store b
      /\ isRunning (the_job (trigger_handler mail now admin b).2)
         = isRunning (the_job b)).
Proof.
  unfold trigger_handler, triggerDailyProfitJob, adminLog_create.
  pose proof (execute_connected mail now (the_job b) (the_store b)) as Hcon.
  pose proof (execute_flag mail now (the_job b) (the_store b)) as Hflag.
  split.
  - intros Hc.
    pose proof (execute_success mail now (the_job b) (the_store b) Hc) as Hs.
    destruct (execute mail now (the_job b) (the_store b)) as [[result job'] p'].
    simpl in *. rewrite Hcon, Hc. simpl. eexists _, _.
    split; [reflexivity|]. simpl. rewrite Hs.
    split; [done|]. split; [done|].
    split; [destruct (isRunning (the_job b)); by split|].
    split; [destruct (isRunning (the_job b)); by split|].
    split; [done|]. split; [done|]. by eexists _, _, _.
  - intros Hc.
    assert (Hp : (execute mail now (the_job b) (the_store b)).2 = the_store b).
    { unfold execute. destruct (isRunning (the_job b)); [done|].
      unfold findMany_active. by rewrite Hc. }
    destruct (execute mail now (the_job b) (the_store b)) as [[result job'] p'].
    simpl in *. subst p'. rewrite Hc. simpl. rewrite ?Hc. done.
Qed.

Lemma trigger_handler_reports_witness :
  exists response,
    (trigger_handler mail_ok (day 5) root
       (mkBackend (mkJob "DailyProfitCalculation" true) (store 0 ACTIVE 0)
          new_scheduler [])).1 = Sent response
    /\ TriggerResponse.success response = true
    /\ TriggerResponse.message response = "Daily profit job completed with errors".
Proof.
  destruct (trigger_handler_reports mail_ok (day 5) root
              (mkBackend (mkJob "DailyProfitCalculation" true) (store 0 ACTIVE 0)
                 new_scheduler [])) as [H _].
  destruct H as (response & log & H1 & H2 & _ & _ & H3 & _); [reflexivity|].
  exists response. split; [exact H1|]. split; [exact H2|].
  apply H3. reflexivity.
Defined.

(** X20. Job control.  An action other than 'start' or 'stop' is refused
    with 400 and an unknown job with 404, in both cases with nothing
    changed and nothing logged.  For a registered job the scheduler is
    switched first and the admin log written second: with the store
    reachable the handler answers success and appends one log entry; with
    the store unreachable it throws the store error, yet the job has been
    started or stopped all the same. *)
Theorem control_handler_cases admin jobName action b :
  (action ∉ ["start"; "stop"] ->
   control_handler admin jobName action b
   = (Thrown (HttpError 400 invalid_action_message "jobs.invalid_action"), b))
  /\ (action ∈ ["start"; "stop"] ->
      scheduledJobs (the_scheduler b) !! jobName = None ->
      control_handler admin jobName action b
      = (Thrown (HttpError 404 "Job not found" "jobs.job_not_found"), b))
  /\ (action ∈ ["start"; "stop"] ->
      is_Some (scheduledJobs (the_scheduler b) !! jobName) ->
      the_scheduler (control_handler admin jobName action b).2
      = (if decide (action = "start")
         then (startJob jobName (the_scheduler b)).2
         else (stopJob jobName (the_scheduler b)).2)
      /\ (connected (the_store b) = true ->
          exists response log,
            (control_handler admin jobName action b).1 = Sent response
            /\ ControlResponse.success response = true
            /\ adminLogs (control_handler admin jobName action b).2
               = (adminLogs b ++ [log])%list)
      /\ (connected (the_store b) = false ->
          (control_handler admin jobName action b).1
          = Thrown (StoreError unreachable_msg)
          /\ adminLogs (control_handler admin jobName action b).2 = adminLogs b)).
Proof.
  unfold control_handler, adminLog_create. split; [|split].
  - intros Hno. by rewrite bool_decide_eq_false_2.
  - intros Hin Hnone. rewrite bool_decide_eq_true_2 by done. simpl.
    unfold startJob, stopJob. rewrite Hnone.
    destruct (decide (action = "start")); simpl; by destruct b.
  - intros Hin [job Hjob]. rewrite bool_decide_eq_true_2 by done. simpl.
    unfold startJob, stopJob. rewrite Hjob.
    destruct (decide (action = "start")); simpl;
      destruct (connected (the_store b)); simpl;
      (split; [done|]); split; intros Hc; try done; by eexists _, _.
Qed.

Lemma control_handler_cases_witness :
  control_handler root "report" "stop"
    (mkBackend new_job (store 0 ACTIVE 0) custom_daily [])
  = (Thrown (HttpError 404 "Job not found" "jobs.job_not_found"),
     mkBackend new_job (store 0 ACTIVE 0) custom_daily [])
  /\ task_started
       (the_scheduler
          (control_handler root "dailyProfitJob" "stop"
             (mkBackend new_job (unreachable (store 0 ACTIVE 0)) custom_daily [])).2)
       0 = Some false.
Proof.
  destruct (control_handler_cases root "report" "stop"
              (mkBackend new_job (store 0 ACTIVE 0) custom_daily []))
    as (_ & H1 & _).
  destruct (control_handler_cases root "dailyProfitJob" "stop"
              (mkBackend new_job (unreachable (store 0 ACTIVE 0)) custom_daily []))
    as (_ & _ & H2).
  split.
  - apply H1; [repeat constructor | reflexivity].
  - destruct H2 as (-> & _); [repeat constructor | by eexists |]. reflexivity.
Defined.

(** * The amounts on binary64 numbers *)

(** ** Reading and storing *)

(** The decimals of the examples read as the numbers JavaScript shows, and
    the numbers the job computes are stored as the decimals JavaScript
    prints: 0.1 + 0.2 is stored as 0.30000000000000004. *)
Lemma toDecimal_examples :
  (toDecimal (parseFloat 7.5) == 7.5)%Q
  /\ (toDecimal (PrimFloat.add (parseFloat 0.1) (parseFloat 0.2))
      == 0.30000000000000004)%Q
  /\ (toDecimal (PrimFloat.sub (parseFloat 1.665) (parseFloat 1.11))
      == 0.5549999999999999)%Q
  /\ PrimFloat.eqb (parseFloat 1.6649999999999999) (parseFloat 1.665) = false.
Proof. vm_compute. repeat split. Qed.

(** ** Ceiling *)


(** ** Idempotence *)

(** C3. The second application can credit again.  37 at 1.5 % a day,
    credited on days 1 and 2, holds total_earned 1.11.  On day 3 the job owes
    1.665 - 1.11, a number that prints as 0.5549999999999999, and the store
    then holds 1.6649999999999999, which reads back as a number below the
    1.665 the job computes.  Applied again at the same time to the row read
    back, [processInvestment] finds a positive amount owed, credits it,
    writes a second PROFIT entry and answers 'Profit calculated and
    distributed successfully'. *)
Theorem binary64_second_application_credits_again :
  exists first second result after owed entry,
    read_investment
      (db (Binary64.process_at mail_ok "i1" [day 1; day 2]
             (account 37 1.5 30 0 0 []))) "i1" = Some first
    /\ (ActiveInvestment.total_earned (row first) == 1.11)%Q
    /\ read_investment
         (db (Binary64.processInvestment mail_ok (day 3) first
                (Binary64.process_at mail_ok "i1" [day 1; day 2]
                   (account 37 1.5 30 0 0 []))).2) "i1" = Some second
    /\ (ActiveInvestment.total_earned (row second) == 1.6649999999999999)%Q
    /\ Binary64.processInvestment mail_ok (day 3) second
         (Binary64.processInvestment mail_ok (day 3) first
            (Binary64.process_at mail_ok "i1" [day 1; day 2]
               (account 37 1.5 30 0 0 []))).2
       = (result, after)
    /\ Binary64.success result = true
    /\ Binary64.message result
       = Some "Profit calculated and distributed successfully"
    /\ Binary64.profitAmount result = Some owed
    /\ PrimFloat.ltb 0 owed = true
    /\ transactions (db after)
       = (transactions
            (db (Binary64.processInvestment mail_ok (day 3) first
                   (Binary64.process_at mail_ok "i1" [day 1; day 2]
                      (account 37 1.5 30 0 0 []))).2) ++ [entry])%list
    /\ Transaction.type entry = PROFIT
    /\ (0 < Transaction.amount_usd entry)%Q
    /\ exists balance balance',
         balance_of
           (Binary64.processInvestment mail_ok (day 3) first
              (Binary64.process_at mail_ok "i1" [day 1; day 2]
                 (account 37 1.5 30 0 0 []))).2 "u1" = Some balance
         /\ balance_of after "u1" = Some balance'
         /\ (balance < balance')%Q.
Proof.
  eexists _, _, _, _, _, _.
  split; [vm_compute; reflexivity|]. split; [by vm_compute|].
  split; [vm_compute; reflexivity|]. split; [by vm_compute|].
  split; [vm_compute; reflexivity|].
  split; [reflexivity|]. split; [reflexivity|]. split; [reflexivity|].
  split; [by vm_compute|]. split; [vm_compute; reflexivity|].
  split; [reflexivity|]. split; [by vm_compute|].
  eexists _, _. split; [vm_compute; reflexivity|].
  split; [vm_compute; reflexivity|]. by vm_compute.
Qed.

(** ** Conservation *)

Lemma binary64_profit_tx_fresh now investment d :
  fresh d investment ->
  Binary64.profit_tx now investment d
  = Returned
      (User.increment_balance (toDecimal (Binary64.newProfit now investment))
         (user investment),
       ActiveInvestment.increment_earned
         (toDecimal (Binary64.newProfit now investment)) now (row investment),
       Binary64.newProfit now investment,
       mkDb (<[ActiveInvestment.user_id (row investment) :=
                 User.increment_balance
                   (toDecimal (Binary64.newProfit now investment))
                   (user investment)]> (users d))
            (investmentPlans d)
            (<[ActiveInvestment.id (row investment) :=
                 ActiveInvestment.increment_earned
                   (toDecimal (Binary64.newProfit now investment)) now
                   (row investment)]> (activeInvestments d))
            (transactions d ++
             [Transaction.mk (ActiveInvestment.user_id (row investment)) PROFIT
                (toDecimal (Binary64.newProfit now investment))
                (Transaction.DailyProfit (InvestmentPlan.name (plan investment))
                   (ActiveInvestment.daily_percent (row investment)))])).
Proof.
  intros (Hr & Hu & _)%fresh_lookups.
  unfold Binary64.profit_tx. cbv zeta.
  generalize (toDecimal (Binary64.newProfit now investment)) as delta.
  intros delta.
  unfold tx_bind, user_update_increment, activeInvestment_update,
    transaction_create, tx_ret.
  cbn [users investmentPlans activeInvestments transactions].
  rewrite Hu. cbn [users investmentPlans activeInvestments transactions].
  rewrite Hr. reflexivity.
Qed.

Lemma binary64_complete_tx_fresh now investment d :
  fresh d investment ->
  exists updatedUser,
    Binary64.complete_tx now investment d
    = Returned
        (updatedUser,
         ActiveInvestment.complete
           (toDecimal (Binary64.totalExpectedProfit investment)) now
           (row investment),
         Binary64.remainingProfit investment,
         mkDb (if PrimFloat.ltb 0 (Binary64.remainingProfit investment)
               then <[ActiveInvestment.user_id (row investment) :=
                        User.increment_balance
                          (toDecimal (Binary64.remainingProfit investment))
                          (user investment)]> (users d)
               else users d)
              (investmentPlans d)
              (<[ActiveInvestment.id (row investment) :=
                   ActiveInvestment.complete
                     (toDecimal (Binary64.totalExpectedProfit investment)) now
                     (row investment)]> (activeInvestments d))
              ((transactions d ++
                (if PrimFloat.ltb 0 (Binary64.remainingProfit investment)
                 then [Transaction.mk (ActiveInvestment.user_id (row investment))
                         PROFIT
                         (toDecimal (Binary64.remainingProfit investment))
                         (Transaction.FinalProfit
                            (InvestmentPlan.name (plan investment)))]
                 else [])) ++
               [Transaction.mk (ActiveInvestment.user_id (row investment))
                  INVESTMENT 0
                  (Transaction.InvestmentCompleted
                     (InvestmentPlan.name (plan investment))
                     (toDecimal (Binary64.totalExpectedProfit investment)))])).
Proof.
  intros (Hr & Hu & _)%fresh_lookups.
  unfold Binary64.complete_tx. cbv zeta.
  generalize (toDecimal (Binary64.totalExpectedProfit investment)) as total.
  generalize (toDecimal (Binary64.remainingProfit investment)) as rho.
  intros rho total.
  unfold tx_bind, user_update_increment, activeInvestment_update,
    transaction_create, tx_ret.
  destruct (PrimFloat.ltb 0 (Binary64.remainingProfit investment));
    cbn [users investmentPlans activeInvestments transactions].
  - rewrite Hu. cbn [users investmentPlans activeInvestments transactions].
    rewrite Hr. eexists. reflexivity.
  - rewrite Hr. rewrite app_nil_r. eexists. reflexivity.
Qed.

(** One application up to the end date, on the row as read: either nothing
    is written, or one PROFIT entry, and total_earned and the balance grow
    by what the ledger gained. *)
Lemma binary64_daily_step mail now investment p :
  connected p = true ->
  fresh (db p) investment ->
  (now <= ActiveInvestment.end_date (row investment))%Z ->
  exists after written,
    connected (Binary64.processInvestment mail now investment p).2 = true
    /\ read_investment (db (Binary64.processInvestment mail now investment p).2)
         (ActiveInvestment.id (row investment)) = Some after
    /\ ActiveInvestment.id (row after) = ActiveInvestment.id (row investment)
    /\ ActiveInvestment.end_date (row after)
       = ActiveInvestment.end_date (row investment)
    /\ ActiveInvestment.status (row after)
       = ActiveInvestment.status (row investment)
    /\ transactions (db (Binary64.processInvestment mail now investment p).2)
       = (transactions (db p) ++ written)%list
    /\ Forall (fun t => Transaction.type t = PROFIT) written
    /\ (ActiveInvestment.total_earned (row after)
        == ActiveInvestment.total_earned (row investment) + ledger_sum written)%Q
    /\ (User.balance_usd (user after)
        == User.balance_usd (user investment) + ledger_sum written)%Q.
Proof.
  intros Hc Hf He.
  assert (Hsame : exists after written,
    connected p = true
    /\ read_investment (db p) (ActiveInvestment.id (row investment)) = Some after
    /\ ActiveInvestment.id (row after) = ActiveInvestment.id (row investment)
    /\ ActiveInvestment.end_date (row after)
       = ActiveInvestment.end_date (row investment)
    /\ ActiveInvestment.status (row after)
       = ActiveInvestment.status (row investment)
    /\ transactions (db p) = (transactions (db p) ++ written)%list
    /\ Forall (fun t => Transaction.type t = PROFIT) written
    /\ (ActiveInvestment.total_earned (row after)
        == ActiveInvestment.total_earned (row investment) + ledger_sum written)%Q
    /\ (User.balance_usd (user after)
        == User.balance_usd (user investment) + ledger_sum written)%Q).
  { exists investment, []. rewrite app_nil_r.
    do 6 (split; [done|]). split; [constructor|].
    change (ledger_sum []) with 0%Q. split; lra. }
  unfold Binary64.processInvestment.
  rewrite (proj2 (Z.ltb_ge _ _) He).
  destruct (daysElapsed now investment <? 1)%Z; [exact Hsame|].
  destruct (PrimFloat.leb (Binary64.newProfit now investment) 0); [exact Hsame|].
  clear Hsame. unfold transaction. rewrite Hc.
  rewrite (binary64_profit_tx_fresh now investment (db p) Hf).
  destruct (fresh_lookups _ _ Hf) as (Hr & Hu & Hp).
  set (delta := toDecimal (Binary64.newProfit now investment)).
  exists (mkInvestment
            (ActiveInvestment.increment_earned delta now (row investment))
            (User.increment_balance delta (user investment))
            (plan investment)).
  eexists. cbn [snd db connected transactions].
  split; [done|]. split.
  { unfold read_investment, include_relations.
    cbn [activeInvestments users investmentPlans].
    rewrite lookup_insert_eq.
    cbn [ActiveInvestment.increment_earned ActiveInvestment.user_id
         ActiveInvestment.plan_id].
    rewrite lookup_insert_eq, Hp. done. }
  do 3 (split; [done|]). split; [reflexivity|].
  split; [repeat constructor|].
  change (ledger_sum [_]) with (delta + 0)%Q.
  cbn [row user ActiveInvestment.increment_earned ActiveInvestment.total_earned
       User.increment_balance User.balance_usd].
  split; lra.
Qed.

(** Any number of applications up to the end date, each on the row as read
    back: the entries written are PROFIT entries and sum to what total_earned
    and the balance gained. *)
Lemma binary64_daily_sequence mail iid times :
  forall p investment,
    connected p = true ->
    read_investment (db p) iid = Some investment ->
    ActiveInvestment.id (row investment) = iid ->
    Forall (fun t => (t <= ActiveInvestment.end_date (row investment))%Z) times ->
    exists after written,
      read_investment (db (Binary64.process_at mail iid times p)) iid = Some after
      /\ transactions (db (Binary64.process_at mail iid times p))
         = (transactions (db p) ++ written)%list
      /\ Forall (fun t => Transaction.type t = PROFIT) written
      /\ ActiveInvestment.status (row after)
         = ActiveInvestment.status (row investment)
      /\ (ActiveInvestment.total_earned (row after)
          == ActiveInvestment.total_earned (row investment) + ledger_sum written)%Q
      /\ (User.balance_usd (user after)
          == User.balance_usd (user investment) + ledger_sum written)%Q.
Proof.
  induction times as [|t times IH]; intros p investment Hc Hread Hid Hall.
  - exists investment, []. cbn [Binary64.process_at foldl]. rewrite app_nil_r.
    split; [done|]. split; [done|]. split; [constructor|]. split; [done|].
    change (ledger_sum []) with 0%Q. split; lra.
  - apply Forall_cons in Hall as [Ht Hall].
    assert (Hf : fresh (db p) investment) by (unfold fresh; by rewrite Hid).
    destruct (binary64_daily_step mail t investment p Hc Hf Ht)
      as (mid & w1 & Hc1 & Hread1 & Hid1 & Hend1 & Hst1 & Htx1 & Hty1 & Hte1 & Hbal1).
    rewrite Hid in Hread1.
    change (Binary64.process_at mail iid (t :: times) p)
      with (Binary64.process_at mail iid times (Binary64.process_fresh mail iid p t)).
    assert (Hstep : Binary64.process_fresh mail iid p t
                    = (Binary64.processInvestment mail t investment p).2)
      by (unfold Binary64.process_fresh; by rewrite Hread).
    rewrite Hstep.
    destruct (IH _ mid Hc1 Hread1) as (after & w2 & Hread2 & Htx2 & Hty2 & Hst2 & Hte2 & Hbal2).
    { by rewrite Hid1. }
    { by rewrite Hend1. }
    exists after, (w1 ++ w2)%list.
    split; [exact Hread2|].
    split; [by rewrite Htx2, Htx1, app_assoc|].
    split; [by apply Forall_app|].
    split; [by rewrite Hst2|].
    pose proof (ledger_sum_app w1 w2). split; lra.
Qed.

(** Strictly after the end date, on the row as read: the row is COMPLETED
    with the total the job computes, a PROFIT entry is written only for a
    positive remainder, and the closing entry has amount 0. *)
Lemma binary64_completion_step mail now investment p :
  connected p = true ->
  fresh (db p) investment ->
  (ActiveInvestment.end_date (row investment) < now)%Z ->
  exists after written,
    read_investment (db (Binary64.processInvestment mail now investment p).2)
      (ActiveInvestment.id (row investment)) = Some after
    /\ transactions (db (Binary64.processInvestment mail now investment p).2)
       = (transactions (db p) ++ written)%list
    /\ ActiveInvestment.status (row after) = COMPLETED
    /\ ActiveInvestment.total_earned (row after)
       = toDecimal (Binary64.totalExpectedProfit investment)
    /\ (ledger_sum written
        == User.balance_usd (user after) - User.balance_usd (user investment))%Q
    /\ if PrimFloat.ltb 0 (Binary64.remainingProfit investment)
       then exists entry closing,
              written = [entry; closing]
              /\ Transaction.type entry = PROFIT
              /\ Transaction.amount_usd entry
                 = toDecimal (Binary64.remainingProfit investment)
              /\ Transaction.type closing = INVESTMENT
              /\ Transaction.amount_usd closing = 0%Q
       else exists closing,
              written = [closing]
              /\ Transaction.type closing = INVESTMENT
              /\ Transaction.amount_usd closing = 0%Q
              /\ user after = user investment.
Proof.
  intros Hc Hf He. unfold Binary64.processInvestment.
  rewrite (proj2 (Z.ltb_lt _ _) He).
  unfold Binary64.completeInvestment, transaction. rewrite Hc.
  destruct (binary64_complete_tx_fresh now investment (db p) Hf) as [u ->].
  destruct (fresh_lookups _ _ Hf) as (Hr & Hu & Hp).
  set (rho := toDecimal (Binary64.remainingProfit investment)).
  set (total := toDecimal (Binary64.totalExpectedProfit investment)).
  cbn [snd db transactions].
  destruct (PrimFloat.ltb 0 (Binary64.remainingProfit investment)).
  - exists (mkInvestment (ActiveInvestment.complete total now (row investment))
              (User.increment_balance rho (user investment)) (plan investment)).
    eexists. split.
    { unfold read_investment, include_relations.
      cbn [activeInvestments users investmentPlans].
      rewrite lookup_insert_eq.
      cbn [ActiveInvestment.complete ActiveInvestment.user_id
           ActiveInvestment.plan_id].
      rewrite lookup_insert_eq, Hp. done. }
    split; [by rewrite <- app_assoc|].
    split; [done|]. split; [done|]. split.
    { change (ledger_sum _) with (rho + (0 + 0))%Q.
      cbn [user User.increment_balance User.balance_usd]. lra. }
    eexists _, _. done.
  - exists (mkInvestment (ActiveInvestment.complete total now (row investment))
              (user investment) (plan investment)).
    eexists. split.
    { unfold read_investment, include_relations.
      cbn [activeInvestments users investmentPlans].
      rewrite lookup_insert_eq.
      cbn [ActiveInvestment.complete ActiveInvestment.user_id
           ActiveInvestment.plan_id].
      rewrite Hu, Hp. done. }
    split; [by rewrite app_nil_r|].
    split; [done|]. split; [done|]. split.
    { change (ledger_sum _) with (0 + 0)%Q. cbn [user]. lra. }
    eexists. done.
Qed.

(** The ledger and total_earned agree at 50, above a contractual total of
    45.  Completion writes no PROFIT entry and assigns 45: the entries still
    sum to 50, and the value assigned is not the final PROFIT entry plus the
    prior earnings. *)
Lemma conservation_counterexample :
  (ledger_sum
     (transactions
        (db (account 100 1.5 30 50 50
               [Transaction.mk "u1" PROFIT 50 (Transaction.DailyProfit "Plan" 1.5)])))
   == ActiveInvestment.total_earned (row (listed 100 1.5 30 50 50)))%Q
  /\ fresh
       (db (account 100 1.5 30 50 50
              [Transaction.mk "u1" PROFIT 50 (Transaction.DailyProfit "Plan" 1.5)]))
       (listed 100 1.5 30 50 50)
  /\ exists result after closing,
       Binary64.processInvestment mail_ok (day 31) (listed 100 1.5 30 50 50)
         (account 100 1.5 30 50 50
            [Transaction.mk "u1" PROFIT 50 (Transaction.DailyProfit "Plan" 1.5)])
       = (result, after)
       /\ Binary64.success result = true
       /\ Binary64.completed result = Some true
       /\ transactions (db after)
          = [Transaction.mk "u1" PROFIT 50 (Transaction.DailyProfit "Plan" 1.5);
             closing]
       /\ Transaction.type closing = INVESTMENT
       /\ (ledger_sum (transactions (db after)) == 50)%Q
       /\ earned_of after "i1" = Some 45%Q
       /\ ~ (ledger_sum (transactions (db after)) == 45)%Q
       /\ status_of after "i1" = Some COMPLETED
       /\ balance_of after "u1" = Some 50%Q.
Proof.
  split; [by vm_compute|]. split; [reflexivity|].
  eexists _, _, _. split; [vm_compute; reflexivity|].
  do 6 (split; [done|]). split; [|done].
  intros H. by vm_compute in H.
Qed.

(** Within the ceiling too the value assigned on completion is computed on
    its own and need not be the sum of the entries: 100 at 1.1 % a day over 3
    days, credited on days 1, 2 and 3 and completed on day 4, has entries
    summing to 3.3000000000000005 and total_earned 3.3000000000000007. *)
Lemma binary64_completion_total_is_recomputed :
  (ledger_sum
     (transactions
        (db (Binary64.process_at mail_ok "i1" [day 1; day 2; day 3; day 4]
               (account 100 1.1 3 0 0 []))))
   == 3.3000000000000005)%Q
  /\ Qred <$> earned_of
       (Binary64.process_at mail_ok "i1" [day 1; day 2; day 3; day 4]
          (account 100 1.1 3 0 0 [])) "i1"
     = Some (Qred 3.3000000000000007)
  /\ Qred <$> balance_of
       (Binary64.process_at mail_ok "i1" [day 1; day 2; day 3; day 4]
          (account 100 1.1 3 0 0 [])) "u1"
     = Some (Qred 3.3000000000000005).
Proof. vm_compute. repeat split. Qed.

(** C4 (amended). Every daily credit writes one PROFIT entry whose amount is
    the increment applied to total_earned and to the balance in the same
    transaction: over any number of applications up to the end date, each on
    the row as read back, the entries written sum to what total_earned gained
    and to what the balance gained.  Completion does not add to
    total_earned: it assigns the contractual total the job computes, whatever
    the row held; it writes a PROFIT entry, and credits the balance, only for
    a positive remainder max(0, contractual total - total_earned), and always
    a closing INVESTMENT entry of amount 0. *)
Theorem daily_entries_mirror_increments mail iid times now p investment :
  connected p = true ->
  read_investment (db p) iid = Some investment ->
  ActiveInvestment.id (row investment) = iid ->
  (Forall (fun t => (t <= ActiveInvestment.end_date (row investment))%Z) times ->
   exists after written,
     read_investment (db (Binary64.process_at mail iid times p)) iid = Some after
     /\ transactions (db (Binary64.process_at mail iid times p))
        = (transactions (db p) ++ written)%list
     /\ Forall (fun t => Transaction.type t = PROFIT) written
     /\ ActiveInvestment.status (row after)
        = ActiveInvestment.status (row investment)
     /\ (ledger_sum written
         == ActiveInvestment.total_earned (row after)
            - ActiveInvestment.total_earned (row investment))%Q
     /\ (ledger_sum written
         == User.balance_usd (user after) - User.balance_usd (user investment))%Q)
  /\ ((ActiveInvestment.end_date (row investment) < now)%Z ->
      PrimFloat.is_finite (Binary64.totalExpectedProfit investment) = true ->
      PrimFloat.is_finite (Binary64.remainingProfit investment) = true ->
      exists after written,
        read_investment
          (db (Binary64.processInvestment mail now investment p).2) iid
        = Some after
        /\ transactions (db (Binary64.processInvestment mail now investment p).2)
           = (transactions (db p) ++ written)%list
        /\ ActiveInvestment.status (row after) = COMPLETED
        /\ ActiveInvestment.total_earned (row after)
           = toDecimal (Binary64.totalExpectedProfit investment)
        /\ (ledger_sum written
            == User.balance_usd (user after)
               - User.balance_usd (user investment))%Q
        /\ if PrimFloat.ltb 0 (Binary64.remainingProfit investment)
           then exists entry closing,
                  written = [entry; closing]
                  /\ Transaction.type entry = PROFIT
                  /\ Transaction.amount_usd entry
                     = toDecimal (Binary64.remainingProfit investment)
                  /\ Transaction.type closing = INVESTMENT
                  /\ Transaction.amount_usd closing = 0%Q
           else exists closing,
                  written = [closing]
                  /\ Transaction.type closing = INVESTMENT
                  /\ Transaction.amount_usd closing = 0%Q
                  /\ user after = user investment).
Proof.
  intros Hc Hread Hid. split.
  - intros Hall.
    destruct (binary64_daily_sequence mail iid times p investment Hc Hread Hid Hall)
      as (after & written & H1 & H2 & H3 & H4 & H5 & H6).
    exists after, written. do 4 (split; [done|]). split; lra.
  - intros He _ _.
    assert (Hf : fresh (db p) investment) by (unfold fresh; by rewrite Hid).
    destruct (binary64_completion_step mail now investment p Hc Hf He)
      as (after & written & H). rewrite Hid in H. by exists after, written.
Qed.

(** 100 at 1.5 % a day over 30 days: the three credits of days 1, 2 and 3
    are mirrored by three entries; with 40 earned, completion on day 31
    writes the last 5 and the closing entry. *)
Lemma daily_entries_mirror_increments_witness :
  (exists after written,
     read_investment
       (db (Binary64.process_at mail_ok "i1" [day 1; day 2; day 3]
              (account 100 1.5 30 0 0 []))) "i1" = Some after
     /\ transactions
          (db (Binary64.process_at mail_ok "i1" [day 1; day 2; day 3]
                 (account 100 1.5 30 0 0 [])))
        = written
     /\ length written = 3%nat
     /\ (ledger_sum written == ActiveInvestment.total_earned (row after))%Q
     /\ (ledger_sum written == User.balance_usd (user after))%Q)
  /\ (exists after written,
        read_investment
          (db (Binary64.processInvestment mail_ok (day 31)
                 (listed 100 1.5 30 40 40) (account 100 1.5 30 40 40 [])).2) "i1"
        = Some after
        /\ transactions
             (db (Binary64.processInvestment mail_ok (day 31)
                    (listed 100 1.5 30 40 40) (account 100 1.5 30 40 40 [])).2)
           = written
        /\ (ledger_sum written == 5)%Q
        /\ (User.balance_usd (user after) == 45)%Q
        /\ ActiveInvestment.status (row after) = COMPLETED).
Proof.
  split.
  - destruct (daily_entries_mirror_increments mail_ok "i1" [day 1; day 2; day 3]
                (day 31) (account 100 1.5 30 0 0 []) (listed 100 1.5 30 0 0))
      as [H _]; [reflexivity | reflexivity | reflexivity |].
    destruct H as (after & written & H1 & H2 & _ & _ & H5 & H6).
    { repeat constructor; by vm_compute. }
    exists after, written. split; [exact H1|]. split; [exact H2|].
    split; [|split].
    + simpl app in H2. rewrite <- H2. by vm_compute.
    + rewrite H5. change (ActiveInvestment.total_earned (row (listed 100 1.5 30 0 0)))
        with 0%Q. lra.
    + rewrite H6. change (User.balance_usd (user (listed 100 1.5 30 0 0)))
        with 0%Q. lra.
  - destruct (daily_entries_mirror_increments mail_ok "i1" [] (day 31)
                (account 100 1.5 30 40 40 []) (listed 100 1.5 30 40 40))
      as [_ H]; [reflexivity | reflexivity | reflexivity |].
    destruct H as (after & written & H1 & H2 & H3 & _ & H5 & _);
      [by vm_compute | by vm_compute | by vm_compute |].
    exists after, written. split; [exact H1|]. split; [exact H2|].
    assert (Hb : (User.balance_usd (user after) == 45)%Q).
    { revert H1. vm_compute. intros [= <-]. done. }
    split; [|split; [exact Hb | exact H3]].
    rewrite H5, Hb.
    change (User.balance_usd (user (listed 100 1.5 30 40 40))) with 40%Q. lra.
Defined.
